(** * scripts/update_fallback_data.py

    A shallow embedding of the electricity-price updater: the ENTSO-E
    fetcher, the fallback generator, the JSON writer and [main].

    Conventions of the embedding.
    - A Python [float] is an exact rational ([Q]); [round(x, 2)] rounds
      the exact value to hundredths, ties to even.
    - A [datetime] is the proleptic Gregorian day number of its date
      ([toordinal()]) with its time-of-day fields and its UTC offset; a
      [timedelta] is its count of microseconds.
    - ISO-8601 text ([isoformat()]) is kept as the value it spells out.
    - The clock, the Mersenne Twister, the network, standard output and
      the disk make up an explicit [world] threaded through a state and
      exception monad. *)

From Stdlib Require Import String ZArith QArith Qround List Bool Lia Lqa.
Import ListNotations.
Open Scope Z_scope.

(* ------------------------------------------------------------------ *)
(** ** Exceptions and results *)

(** The exception classes the calls of the script can raise; every one
    of them derives from Python's [Exception]. *)
Inductive exn : Type :=
| OverflowError
| ValueError
| ZeroDivisionError
| StopIteration
| RequestException (reason : string)
| PermissionError
| FileExistsError
| FileNotFoundError
| NotADirectoryError
| IsADirectoryError.

Inductive result (A : Type) : Type :=
| Return (a : A)
| Raise (e : exn).
Arguments Return {A} a.
Arguments Raise {A} e.

(* ------------------------------------------------------------------ *)
(** ** Floats *)

(** Round to the nearest integer, ties to even. *)
Definition round_half_even (x : Q) : Z :=
  let f := Qfloor x in
  let r := (x - inject_Z f)%Q in
  match (r ?= 1 # 2)%Q with
  | Lt => f
  | Gt => f + 1
  | Eq => if Z.even f then f else f + 1
  end.

Fixpoint pow10 (ndigits : nat) : positive :=
  match ndigits with
  | O => 1
  | S n => 10 * pow10 n
  end%positive.

(** [round(x, ndigits)] for [ndigits >= 0]. *)
Definition py_round (x : Q) (ndigits : nat) : Q :=
  Qmake (round_half_even (x * inject_Z (Zpos (pow10 ndigits)))) (pow10 ndigits).

Definition Qlt_bool (x y : Q) : bool := negb (Qle_bool y x).

(** [sum(xs)]. *)
Definition py_sum (xs : list Q) : Q := fold_left Qplus xs 0%Q.

(** [x / n] for a float [x] and an [int] [n]. *)
Definition py_div (x : Q) (n : Z) : result Q :=
  if n =? 0 then Raise ZeroDivisionError else Return (x / inject_Z n)%Q.

(** [len(xs)]. *)
Definition len {A : Type} (xs : list A) : Z := Z.of_nat (List.length xs).

(* ------------------------------------------------------------------ *)
(** ** Built-ins over iterables *)

Section Builtins.
Context {A K : Type}.
Variable key : A -> K.
Variable lt : K -> K -> bool.

(** [min(xs, key=key)]: the running best is replaced only by an item
    whose key is strictly smaller, so the first minimal item wins. *)
Definition py_min_key (xs : list A) : result A :=
  match xs with
  | [] => Raise ValueError
  | x :: rest =>
      Return (fold_left (fun best y => if lt (key y) (key best) then y else best)
                        rest x)
  end.

(** [max(xs, key=key)]: replaced only by a strictly greater key. *)
Definition py_max_key (xs : list A) : result A :=
  match xs with
  | [] => Raise ValueError
  | x :: rest =>
      Return (fold_left (fun best y => if lt (key best) (key y) then y else best)
                        rest x)
  end.
End Builtins.

Definition py_min (xs : list Q) : result Q := py_min_key (fun x => x) Qlt_bool xs.
Definition py_max (xs : list Q) : result Q := py_max_key (fun x => x) Qlt_bool xs.

(** [next(item for item in xs if cond(item))]. *)
Definition py_next {A : Type} (cond : A -> bool) (xs : list A) : result A :=
  match find cond xs with
  | Some x => Return x
  | None => Raise StopIteration
  end.

(** [range(lo, hi)]. *)
Definition range (lo hi : Z) : list Z :=
  map (fun k => lo + Z.of_nat k) (seq 0 (Z.to_nat (hi - lo))).

(* ------------------------------------------------------------------ *)
(** ** datetime *)

Definition timedelta : Type := Z.

Definition us_per_second : Z := 1000000.
Definition us_per_hour : Z := 3600 * us_per_second.
Definition us_per_day : Z := 24 * us_per_hour.

Definition timedelta_hours (h : Z) : timedelta := h * us_per_hour.
Definition timedelta_days (d : Z) : timedelta := d * us_per_day.

(** [date.max.toordinal()], the day number of 9999-12-31. *)
Definition MAXORDINAL : Z := 3652059.

Record datetime : Type := mkdatetime {
  ordinal : Z;
  hour : Z;
  minute : Z;
  second : Z;
  microsecond : Z;
  utcoffset : Z   (* seconds east of UTC *)
}.

(** The class invariant of a [datetime] object. *)
Definition valid_datetime (d : datetime) : Prop :=
  1 <= ordinal d <= MAXORDINAL /\ 0 <= hour d < 24 /\ 0 <= minute d < 60 /\
  0 <= second d < 60 /\ 0 <= microsecond d < us_per_second.

(** The naive wall-clock reading as one [timedelta], as CPython builds it
    before any arithmetic:
    [timedelta(self.toordinal(), hours=, minutes=, seconds=, microseconds=)]. *)
Definition wall (d : datetime) : timedelta :=
  ordinal d * us_per_day + hour d * us_per_hour + minute d * (60 * us_per_second)
  + second d * us_per_second + microsecond d.

(** [d + delta]; the tzinfo is carried over unchanged. *)
Definition datetime_add (d : datetime) (delta : timedelta) : result datetime :=
  let t := wall d + delta in
  let days := t / us_per_day in
  let rest := t mod us_per_day in
  let seconds := rest / us_per_second in
  let rem := seconds mod 3600 in
  if (0 <? days) && (days <=? MAXORDINAL) then
    Return {| ordinal := days;
              hour := seconds / 3600;
              minute := rem / 60;
              second := rem mod 60;
              microsecond := rest mod us_per_second;
              utcoffset := utcoffset d |}
  else Raise OverflowError.

(** [a - b] for two aware datetimes: the difference of the instants. *)
Definition datetime_sub (a b : datetime) : timedelta :=
  (wall a - utcoffset a * us_per_second) - (wall b - utcoffset b * us_per_second).

(** [d.replace(minute=0, second=0, microsecond=0)]. *)
Definition replace_minute_second_microsecond (d : datetime) (m s us : Z) : datetime :=
  {| ordinal := ordinal d; hour := hour d; minute := m; second := s;
     microsecond := us; utcoffset := utcoffset d |}.

(** [d.replace(hour=0, minute=0, second=0, microsecond=0)]. *)
Definition replace_hour_minute_second_microsecond (d : datetime) (h m s us : Z)
  : datetime :=
  {| ordinal := ordinal d; hour := h; minute := m; second := s;
     microsecond := us; utcoffset := utcoffset d |}.

(** [d.astimezone(pytz.UTC)]. *)
Definition astimezone_utc (d : datetime) : result datetime :=
  match datetime_add d (- (utcoffset d * us_per_second)) with
  | Return u => Return {| ordinal := ordinal u; hour := hour u; minute := minute u;
                          second := second u; microsecond := microsecond u;
                          utcoffset := 0 |}
  | Raise e => Raise e
  end.

(** The text [d.isoformat()] prints the date, the time of day and the
    UTC offset, so it is kept as the datetime it spells out. *)
Inductive isotext : Type := IsoText (d : datetime).

Definition isoformat (d : datetime) : isotext := IsoText d.
Definition fromisoformat (s : isotext) : datetime := let 'IsoText d := s in d.

(** The text of [d.strftime("%Y%m%d%H%M")]: date, hour and minute. *)
Inductive stamptext : Type := StampText (day h m : Z).

Definition strftime_YmdHM (d : datetime) : stamptext :=
  StampText (ordinal d) (hour d) (minute d).

(* ------------------------------------------------------------------ *)
(** ** The price summary *)

(** One entry of [hourly_data]: [{'time': ..., 'price': ...}]. *)
Module Item.
Record t : Type := mk { time : isotext; price : Q }.
End Item.

(** The value of [min_price] and [max_price]: [{'value': ..., 'time': ...}]. *)
Module Extreme.
Record t : Type := mk { value : Q; time : isotext }.
End Extreme.

(** The dictionary returned by [generate_fallback_data]. *)
Record PriceSummary : Type := mkPriceSummary {
  last_updated : isotext;
  current_price : Q;
  average_price : Q;
  min_price : Extreme.t;
  max_price : Extreme.t;
  hourly_data : list Item.t
}.

(* ------------------------------------------------------------------ *)
(** ** The world *)

(** A value of the [params] dictionary of the request. *)
Inductive param : Type :=
| Str (s : string)
| Stamp (s : stamptext).

Record request : Type := mkrequest {
  url : string;
  params : list (string * param)
}.

Record response : Type := mkresponse {
  status_code : Z;
  text : string
}.

(** What [requests.get] does with a request: it answers or it raises. *)
Inductive http_result : Type :=
| Answers (r : response)
| Fails (e : exn).

(** A line printed on standard output; the f-strings keep the value they
    interpolate. *)
Inductive line : Type :=
| Line (s : string)
| ErrorFetching (status : Z)
| ResponseBody (body : string)
| ExceptionWhenFetching (e : exn)
| CurrentPrice (p : Q)
| LastUpdated (t : isotext).

(** What [json.dump(data, f, indent=...)] leaves in the file. *)
Inductive content : Type :=
| Truncated
| JsonDocument (indent : nat) (data : PriceSummary).

(** What the path [data] names. *)
Inductive dir_entry : Type := NoEntry | IsDirectory | NotADirectory.

(** What the path [data/electricity-prices.json] names. *)
Inductive file_entry : Type :=
| NoFile
| RegularFile (c : content) (writable : bool)
| Subdirectory.

Record filesystem : Type := mkfilesystem {
  cwd_writable : bool;     (* entries may be created in the working directory *)
  data_dir : dir_entry;
  data_writable : bool;    (* entries may be created in [data] *)
  prices_json : file_entry
}.

Record world : Type := mkworld {
  clock : nat -> datetime;          (* successive readings of [datetime.now(helsinki_tz)] *)
  ticks : nat;
  twister : nat -> Q;               (* successive values of [random.random()] *)
  drawn : nat;
  network : request -> http_result;
  stdout : list line;
  disk : filesystem
}.

Definition set_ticks (n : nat) (w : world) : world :=
  mkworld (clock w) n (twister w) (drawn w) (network w) (stdout w) (disk w).
Definition set_drawn (n : nat) (w : world) : world :=
  mkworld (clock w) (ticks w) (twister w) n (network w) (stdout w) (disk w).
Definition set_stdout (out : list line) (w : world) : world :=
  mkworld (clock w) (ticks w) (twister w) (drawn w) (network w) out (disk w).
Definition set_disk (fs : filesystem) (w : world) : world :=
  mkworld (clock w) (ticks w) (twister w) (drawn w) (network w) (stdout w) fs.

(* ------------------------------------------------------------------ *)
(** ** The monad of the script: state and exceptions *)

Definition M (A : Type) : Type := world -> result A * world.

Definition ret {A : Type} (a : A) : M A := fun w => (Return a, w).

Definition bind {A B : Type} (c : M A) (k : A -> M B) : M B :=
  fun w =>
    match c w with
    | (Return a, w') => k a w'
    | (Raise e, w') => (Raise e, w')
    end.

Declare Scope py_scope.
Delimit Scope py_scope with py.
Notation "x <- c ;; k" := (bind c (fun x => k))
  (at level 61, c at next level, right associativity) : py_scope.
Notation "c ;; k" := (bind c (fun _ => k))
  (at level 61, right associativity) : py_scope.
Open Scope py_scope.

(** A pure call that may raise. *)
Definition lift {A : Type} (r : result A) : M A := fun w => (r, w).

(** [try: body  except Exception as e: handler(e)].  Every member of
    [exn] is an instance of [Exception], so the handler takes them all;
    the state reached when the exception was raised is kept. *)
Definition try_except {A : Type} (body : M A) (handler : exn -> M A) : M A :=
  fun w =>
    match body w with
    | (Return a, w') => (Return a, w')
    | (Raise e, w') => handler e w'
    end.

(** [for x in xs: body], the body updating the local [acc]. *)
Fixpoint for_in {I S : Type} (xs : list I) (body : I -> S -> M S) (acc : S) : M S :=
  match xs with
  | [] => ret acc
  | x :: rest => acc' <- body x acc ;; for_in rest body acc'
  end.

Definition print (l : line) : M unit :=
  fun w => (Return tt, set_stdout (stdout w ++ [l]) w).

(** [datetime.now(helsinki_tz)]. *)
Definition datetime_now : M datetime :=
  fun w => (Return (clock w (ticks w)), set_ticks (S (ticks w)) w).

(** [random.random()]. *)
Definition random_random : M Q :=
  fun w => (Return (twister w (drawn w)), set_drawn (S (drawn w)) w).

(** [random.uniform(a, b)], which is [a + (b - a) * random()]. *)
Definition random_uniform (a b : Q) : M Q :=
  u <- random_random ;; ret (a + (b - a) * u)%Q.

(** [requests.get(url, params=params)]. *)
Definition requests_get (u : string) (ps : list (string * param)) : M response :=
  fun w =>
    match network w (mkrequest u ps) with
    | Answers r => (Return r, w)
    | Fails e => (Raise e, w)
    end.

(** [os.makedirs('data', exist_ok=True)]: an existing directory is left
    as it is, anything else under that name is a [FileExistsError], and
    a directory the process creates is empty and writable to it. *)
Definition os_makedirs_exist_ok : M unit :=
  fun w =>
    let fs := disk w in
    match data_dir fs with
    | IsDirectory => (Return tt, w)
    | NotADirectory => (Raise FileExistsError, w)
    | NoEntry =>
        if cwd_writable fs
        then (Return tt, set_disk (mkfilesystem true IsDirectory true NoFile) w)
        else (Raise PermissionError, w)
    end.

(** [open('data/electricity-prices.json', 'w')]: creates or truncates;
    a file the process creates is writable to it. *)
Definition open_w : M unit :=
  fun w =>
    let fs := disk w in
    let created c wr :=
      set_disk (mkfilesystem (cwd_writable fs) (data_dir fs) (data_writable fs)
                             (RegularFile c wr)) w in
    match data_dir fs with
    | IsDirectory =>
        match prices_json fs with
        | NoFile =>
            if data_writable fs then (Return tt, created Truncated true)
            else (Raise PermissionError, w)
        | RegularFile _ wr =>
            if wr then (Return tt, created Truncated wr)
            else (Raise PermissionError, w)
        | Subdirectory => (Raise IsADirectoryError, w)
        end
    | NoEntry => (Raise FileNotFoundError, w)
    | NotADirectory => (Raise NotADirectoryError, w)
    end.

(** [json.dump(data, f, indent=n)] on the file just opened; the text is
    kept as the value it serialises. *)
Definition json_dump (data : PriceSummary) (n : nat) : M unit :=
  fun w =>
    let fs := disk w in
    match prices_json fs with
    | RegularFile _ wr =>
        (Return tt,
         set_disk (mkfilesystem (cwd_writable fs) (data_dir fs) (data_writable fs)
                                (RegularFile (JsonDocument n data) wr)) w)
    | _ => (Raise ValueError, w)
    end.

(* ------------------------------------------------------------------ *)
(** ** fetch_entsoe_data *)

Definition fetch_entsoe_data : M (option PriceSummary) :=
  try_except
    (now <- datetime_now ;;
     period_start <-
       lift (datetime_add (replace_hour_minute_second_microsecond now 0 0 0 0)
                          (- timedelta_days 1)) ;;
     period_start_utc <- lift (astimezone_utc period_start) ;;
     let period_start_str := strftime_YmdHM period_start_utc in
     period_end <-
       lift (datetime_add (replace_hour_minute_second_microsecond now 0 0 0 0)
                          (timedelta_days 2)) ;;
     period_end_utc <- lift (astimezone_utc period_end) ;;
     let period_end_str := strftime_YmdHM period_end_utc in
     let document_type := "A44"%string in
     let in_domain := "10YFI-1--------U"%string in
     let out_domain := "10YFI-1--------U"%string in
     let api_key := "ad66012e-e2fd-41bd-9306-443cb273854e"%string in
     let api_url := "https://web-api.tp.entsoe.eu/api"%string in
     let params :=
       [ ("securityToken"%string, Str api_key);
         ("documentType"%string, Str document_type);
         ("in_Domain"%string, Str in_domain);
         ("out_Domain"%string, Str out_domain);
         ("periodStart"%string, Stamp period_start_str);
         ("periodEnd"%string, Stamp period_end_str) ] in
     response <- requests_get api_url params ;;
     if status_code response =? 200 then
       print (Line "Successfully fetched data from ENTSO-E API, but XML parsing not implemented") ;;
       ret None
     else
       print (ErrorFetching (status_code response)) ;;
       print (ResponseBody (text response)) ;;
       ret None)
    (fun e =>
       print (ExceptionWhenFetching e) ;;
       ret None).

(* ------------------------------------------------------------------ *)
(** ** generate_fallback_data *)

(** The [if]/[elif] chain on [hour_of_day]. *)
Definition base_price (hour_of_day : Z) : Q :=
  if (0 <=? hour_of_day) && (hour_of_day <? 6) then 6.0
  else if (6 <=? hour_of_day) && (hour_of_day <? 9) then 8.0
  else if (9 <=? hour_of_day) && (hour_of_day <? 17) then 12.0
  else if (17 <=? hour_of_day) && (hour_of_day <? 22) then 10.0
  else 7.0.

(** The body of the loop over [range(-24, 24)]. *)
Definition hourly_step (current_hour : datetime) (i : Z) (hourly_data : list Item.t)
  : M (list Item.t) :=
  hour' <- lift (datetime_add current_hour (timedelta_hours i)) ;;
  let hour_of_day := hour hour' in
  noise <- random_uniform (-1.5) 1.5 ;;
  let price := (base_price hour_of_day + noise)%Q in
  ret (hourly_data ++ [ Item.mk (isoformat hour') (py_round price 2) ]).

(** The key of the search for the current hour:
    [abs(datetime.fromisoformat(x['time']) - now)]. *)
Definition distance_to (now : datetime) (x : Item.t) : timedelta :=
  Z.abs (datetime_sub (fromisoformat (Item.time x)) now).

Definition generate_fallback_data : M PriceSummary :=
  now <- datetime_now ;;
  let current_hour := replace_minute_second_microsecond now 0 0 0 in
  hourly_data <- for_in (range (-24) 24) (hourly_step current_hour) [] ;;
  let prices := map Item.price hourly_data in
  avg_price <- lift (py_div (py_sum prices) (len prices)) ;;
  min_price <- lift (py_min prices) ;;
  max_price <- lift (py_max prices) ;;
  min_item <- lift (py_next (fun item => Qeq_bool (Item.price item) min_price) hourly_data) ;;
  max_item <- lift (py_next (fun item => Qeq_bool (Item.price item) max_price) hourly_data) ;;
  current_hour_data <- lift (py_min_key (distance_to now) Z.ltb hourly_data) ;;
  let current_price := Item.price current_hour_data in
  ret {| last_updated := isoformat now;
         current_price := current_price;
         average_price := py_round avg_price 2;
         min_price := Extreme.mk min_price (Item.time min_item);
         max_price := Extreme.mk max_price (Item.time max_item);
         hourly_data := hourly_data |}.

(* ------------------------------------------------------------------ *)
(** ** save_data *)

Definition save_data (data : PriceSummary) : M unit :=
  os_makedirs_exist_ok ;;
  open_w ;;
  json_dump data 2 ;;
  print (Line "Data saved to data/electricity-prices.json") ;;
  print (CurrentPrice (current_price data)) ;;
  print (LastUpdated (last_updated data)).

(* ------------------------------------------------------------------ *)
(** ** main *)

Definition main : M unit :=
  print (Line "Fetching electricity prices for Finland...") ;;
  entsoe_data <- fetch_entsoe_data ;;
  data <-
    match entsoe_data with
    | Some real =>
        print (Line "Successfully fetched and processed real-time data from ENTSO-E") ;;
        ret real
    | None =>
        generated <- generate_fallback_data ;;
        print (Line "Using generated fallback data") ;;
        ret generated
    end ;;
  save_data data ;;
  print (Line "Data update completed successfully!").

(* ------------------------------------------------------------------ *)
(** ** A concrete run *)

(** 2024-01-15 14:37:12.250000+02:00; day 738900 is 2024-01-15. *)
Definition now0 : datetime := mkdatetime 738900 14 37 12 250000 7200.

Definition fs0 : filesystem := mkfilesystem true NoEntry false NoFile.

(** A run with every draw at the midpoint (no noise) and a server that
    answers 200. *)
Definition world0 : world :=
  mkworld (fun _ => now0) 0 (fun _ => 1 # 2)%Q 0
          (fun _ => Answers (mkresponse 200 "<xml/>")) [] fs0.

(** The same run against a server that answers 500. *)
Definition world500 : world :=
  mkworld (fun _ => now0) 0 (fun _ => 1 # 2)%Q 0
          (fun _ => Answers (mkresponse 500 "Internal Server Error")) [] fs0.

(** The same run with the network down. *)
Definition world_offline : world :=
  mkworld (fun _ => now0) 0 (fun _ => 1 # 2)%Q 0
          (fun _ => Fails (RequestException "Connection refused")) [] fs0.

(** The same run in a working directory where nothing can be created. *)
Definition world_readonly : world :=
  mkworld (fun _ => now0) 0 (fun _ => 1 # 2)%Q 0
          (fun _ => Answers (mkresponse 200 "<xml/>")) []
          (mkfilesystem false NoEntry false NoFile).

(** A run whose draws cycle through 0, 1/4, 1/2 and 3/4. *)
Definition world_noisy : world :=
  mkworld (fun _ => now0) 0 (fun n => Z.of_nat (n mod 4) # 4)%Q 0
          (fun _ => Answers (mkresponse 200 "<xml/>")) [] fs0.

(** A run at 14:30:00.000000 sharp, as far from 14:00 as from 15:00. *)
Definition world_half_past : world :=
  mkworld (fun _ => mkdatetime 738900 14 30 0 0 7200) 0 (fun n => Z.of_nat (n mod 4) # 4)%Q 0
          (fun _ => Answers (mkresponse 200 "<xml/>")) [] fs0.

Definition run_world {A : Type} (c : M A) (w : world) : world := snd (c w).

(* ------------------------------------------------------------------ *)
(** ** Vocabulary of the statements *)

(** The instant a datetime denotes, in microseconds on the UTC axis. *)
Definition instant (d : datetime) : Z := wall d - utcoffset d * us_per_second.

(** [x] sits at index [k] of [xs], satisfies [P], and nothing before it does. *)
Definition first_at {A : Type} (P : A -> Prop) (xs : list A) (k : nat) (x : A) : Prop :=
  nth_error xs k = Some x /\ P x /\
  forall j y, (j < k)%nat -> nth_error xs j = Some y -> ~ P y.

(** Lines 152 to 164 of [main]: what it does before it calls [save_data]. *)
Definition obtain_data : M PriceSummary :=
  print (Line "Fetching electricity prices for Finland...") ;;
  entsoe_data <- fetch_entsoe_data ;;
  match entsoe_data with
  | Some real =>
      print (Line "Successfully fetched and processed real-time data from ENTSO-E") ;;
      ret real
  | None =>
      generated <- generate_fallback_data ;;
      print (Line "Using generated fallback data") ;;
      ret generated
  end.

(** The disk refuses neither the creation of [data] nor the opening of
    [data/electricity-prices.json] for writing. *)
Definition writable (fs : filesystem) : bool :=
  match data_dir fs with
  | NoEntry => cwd_writable fs
  | NotADirectory => false
  | IsDirectory =>
      match prices_json fs with
      | NoFile => data_writable fs
      | RegularFile _ wr => wr
      | Subdirectory => false
      end
  end.

(** The value of [random.uniform(-1.5, 1.5)] when [random()] yields [u]. *)
Definition noise_of (u : Q) : Q := (-1.5 + (1.5 - -1.5) * u)%Q.

(** The entry the loop appends for the hour [h] when [random()] yields [u]. *)
Definition hourly_entry (h : datetime) (u : Q) : Item.t :=
  Item.mk (isoformat h) (py_round (base_price (hour h) + noise_of u) 2).

(** A computation that leaves one component of the world alone, however
    it ends. *)
Definition keeps {X A : Type} (component : world -> X) (c : M A) : Prop :=
  forall w, component (snd (c w)) = component w.

(** The time elapsed since the top of the hour. *)
Definition past_the_hour (d : datetime) : timedelta :=
  minute d * (60 * us_per_second) + second d * us_per_second + microsecond d.


(** The lines a computation prints all satisfy [P], however it ends. *)
Definition emits {A : Type} (P : line -> Prop) (c : M A) : Prop :=
  forall w, exists out, stdout (snd (c w)) = stdout w ++ out /\ Forall P out.

(** The last line of [main] and the line of its branch for real data. *)
Definition completed_line : line := Line "Data update completed successfully!".
Definition real_data_line : line :=
  Line "Successfully fetched and processed real-time data from ENTSO-E".


(* ================================================================== *)
(** * Properties *)

(* ------------------------------------------------------------------ *)
(** ** The monad *)

Lemma bind_Return {A B : Type} (c : M A) (k : A -> M B) w b w2 :
  bind c k w = (Return b, w2) ->
  exists a w1, c w = (Return a, w1) /\ k a w1 = (Return b, w2).
Proof.
  unfold bind. destruct (c w) as [[a|e] w1]; intros H.
  - now exists a, w1.
  - discriminate.
Qed.

Lemma bind_assoc {A B C : Type} (c : M A) (f : A -> M B) (g : B -> M C) w :
  bind (bind c f) g w = bind c (fun a => bind (f a) g) w.
Proof.
  unfold bind. destruct (c w) as [[a|e] w1]; reflexivity.
Qed.

Lemma bind_ext {A B : Type} (c : M A) (k1 k2 : A -> M B) w :
  (forall a w1, k1 a w1 = k2 a w1) -> bind c k1 w = bind c k2 w.
Proof.
  intros H. unfold bind. destruct (c w) as [[a|e] w1]; [apply H | reflexivity].
Qed.

Lemma lift_Return {A : Type} (r : result A) w a w1 :
  lift r w = (Return a, w1) -> r = Return a /\ w1 = w.
Proof. unfold lift. intros H. now inversion H. Qed.

(* ------------------------------------------------------------------ *)
(** ** datetime arithmetic *)

Lemma datetime_add_Return d delta h :
  datetime_add d delta = Return h ->
  wall h = wall d + delta /\ utcoffset h = utcoffset d /\
  0 <= hour h < 24 /\ 0 < ordinal h <= MAXORDINAL.
Proof.
  unfold datetime_add.
  set (t := wall d + delta).
  destruct ((0 <? t / us_per_day) && (t / us_per_day <=? MAXORDINAL)) eqn:E;
    [|discriminate].
  intros H. inversion H; subst h; clear H.
  apply andb_prop in E. destruct E as [E1 E2].
  apply Z.ltb_lt in E1. apply Z.leb_le in E2.
  unfold wall; cbn [ordinal hour minute second microsecond utcoffset].
  set (rest := t mod us_per_day).
  set (secs := rest / us_per_second).
  assert (Hrest : 0 <= rest < us_per_day)
    by (apply Z.mod_pos_bound; reflexivity).
  assert (Hsecs : 0 <= secs < 86400).
  { unfold secs. split.
    - apply Z.div_pos; [lia | reflexivity].
    - apply Z.div_lt_upper_bound; [reflexivity|].
      change (us_per_second * 86400) with us_per_day. lia. }
  pose proof (Z.div_mod t us_per_day) as Ht.
  pose proof (Z.div_mod rest us_per_second) as Hr.
  pose proof (Z.div_mod secs 3600) as Hs.
  pose proof (Z.div_mod (secs mod 3600) 60) as Hm.
  fold rest in Ht. fold secs in Hr.
  assert (Hh : 0 <= secs / 3600 < 24).
  { split.
    - apply Z.div_pos; lia.
    - apply Z.div_lt_upper_bound; lia. }
  unfold us_per_day, us_per_hour, us_per_second in *.
  repeat split; try lia.
Qed.

Lemma datetime_add_total d delta :
  0 < (wall d + delta) / us_per_day <= MAXORDINAL ->
  exists h, datetime_add d delta = Return h.
Proof.
  intros [H1 H2]. unfold datetime_add.
  apply Z.ltb_lt in H1. apply Z.leb_le in H2.
  rewrite H1, H2. cbn [andb]. eexists. reflexivity.
Qed.

(* ------------------------------------------------------------------ *)
(** ** min, max and next *)

Section BuiltinFacts.
Context {A K : Type}.
Variable key : A -> K.
Variable lt : K -> K -> bool.
Variable le : K -> K -> Prop.
Hypothesis le_trans : forall a b c, le a b -> le b c -> le a c.
Hypothesis lt_true : forall a b, lt a b = true -> le a b.
Hypothesis lt_false : forall a b, lt a b = false -> le b a.

Lemma le_refl_key a : le a a.
Proof. destruct (lt a a) eqn:E; [apply lt_true | apply lt_false]; exact E. Qed.

Lemma py_min_key_least xs r :
  py_min_key key lt xs = Return r ->
  In r xs /\ forall y, In y xs -> le (key r) (key y).
Proof.
  destruct xs as [|x rest]; [discriminate|]. cbn [py_min_key].
  intros [= <-].
  revert x. induction rest as [|a rest IH]; intros x; cbn [fold_left].
  - split; [now left|]. intros y [<-|[]]. apply le_refl_key.
  - destruct (IH (if lt (key a) (key x) then a else x)) as [Hin Hle].
    assert (Hx : le (key (if lt (key a) (key x) then a else x)) (key x)).
    { destruct (lt (key a) (key x)) eqn:E; [now apply lt_true | apply le_refl_key]. }
    assert (Ha : le (key (if lt (key a) (key x) then a else x)) (key a)).
    { destruct (lt (key a) (key x)) eqn:E; [apply le_refl_key | now apply lt_false]. }
    split.
    + destruct Hin as [Hin|Hin].
      * destruct (lt (key a) (key x)); rewrite <- Hin; [right; now left | now left].
      * right. now right.
    + intros y [<-|[<-|Hy]].
      * eapply le_trans; [apply Hle; now left | exact Hx].
      * eapply le_trans; [apply Hle; now left | exact Ha].
      * apply Hle. now right.
Qed.

Lemma py_max_key_greatest xs r :
  py_max_key key lt xs = Return r ->
  In r xs /\ forall y, In y xs -> le (key y) (key r).
Proof.
  destruct xs as [|x rest]; [discriminate|]. cbn [py_max_key].
  intros [= <-].
  revert x. induction rest as [|a rest IH]; intros x; cbn [fold_left].
  - split; [now left|]. intros y [<-|[]]. apply le_refl_key.
  - destruct (IH (if lt (key x) (key a) then a else x)) as [Hin Hle].
    assert (Hx : le (key x) (key (if lt (key x) (key a) then a else x))).
    { destruct (lt (key x) (key a)) eqn:E; [now apply lt_true | apply le_refl_key]. }
    assert (Ha : le (key a) (key (if lt (key x) (key a) then a else x))).
    { destruct (lt (key x) (key a)) eqn:E; [apply le_refl_key | now apply lt_false]. }
    split.
    + destruct Hin as [Hin|Hin].
      * destruct (lt (key x) (key a)); rewrite <- Hin; [right; now left | now left].
      * right. now right.
    + intros y [<-|[<-|Hy]].
      * eapply le_trans; [exact Hx | apply Hle; now left].
      * eapply le_trans; [exact Ha | apply Hle; now left].
      * apply Hle. now right.
Qed.
End BuiltinFacts.

Lemma py_next_first {A : Type} (cond : A -> bool) (xs : list A) (x : A) :
  py_next cond xs = Return x ->
  exists k, first_at (fun y => cond y = true) xs k x.
Proof.
  unfold py_next. destruct (find cond xs) as [x'|] eqn:E; [|discriminate].
  intros [= <-]. revert E.
  induction xs as [|a xs IH]; cbn [find]; [discriminate|].
  destruct (cond a) eqn:Ea.
  - intros [= <-]. exists 0%nat. repeat split; [exact Ea|]. intros j y Hj. lia.
  - intros E. destruct (IH E) as [k [Hk [Hc Hbefore]]].
    exists (S k). repeat split; [exact Hk | exact Hc |].
    intros [|j] y Hj; cbn [nth_error].
    + intros [= <-]. congruence.
    + apply Hbefore. lia.
Qed.

(** The first-wins rule of [min(xs, key=...)] for integer keys. *)
Lemma py_min_key_first {A : Type} (key : A -> Z) (xs : list A) (r : A) :
  py_min_key key Z.ltb xs = Return r ->
  exists k,
    nth_error xs k = Some r /\
    (forall j y, nth_error xs j = Some y -> key r <= key y) /\
    (forall j y, (j < k)%nat -> nth_error xs j = Some y -> key r < key y).
Proof.
  destruct xs as [|x rest]; [discriminate|]. cbn [py_min_key].
  intros [= <-]. revert x.
  induction rest as [|a rest IH]; intros x; cbn [fold_left].
  - exists 0%nat. repeat split.
    + intros [|[|j]] y; cbn; intros [= <-]. lia.
    + intros j y Hj. lia.
  - destruct (IH (if key a <? key x then a else x)) as [k [Hk [Hall Hbefore]]].
    destruct (key a <? key x) eqn:E;
      remember (fold_left _ rest _) as r eqn:Hr; clear Hr.
    + apply Z.ltb_lt in E.
      exists (S k). split; [exact Hk|]. split.
      * intros [|j] y; cbn [nth_error].
        -- intros [= <-]. specialize (Hall 0%nat a eq_refl). lia.
        -- apply Hall.
      * intros [|j] y Hj; cbn [nth_error].
        -- intros [= <-]. specialize (Hall 0%nat a eq_refl). lia.
        -- apply Hbefore. lia.
    + apply Z.ltb_ge in E.
      destruct k as [|k].
      * cbn in Hk. injection Hk as Hk. subst r.
        exists 0%nat. split; [reflexivity|]. split.
        -- intros [|[|j]] y; cbn [nth_error].
           ++ intros [= <-]. lia.
           ++ intros [= <-]. lia.
           ++ intros Hy. apply (Hall (S j) y). exact Hy.
        -- intros j y Hj. lia.
      * exists (S (S k)). split; [exact Hk|]. split.
        -- intros [|[|j]] y; cbn [nth_error].
           ++ apply (Hall 0%nat).
           ++ intros [= <-]. specialize (Hbefore 0%nat x (Nat.lt_0_succ k) eq_refl). lia.
           ++ apply (Hall (S j)).
        -- intros [|[|j]] y Hj; cbn [nth_error].
           ++ apply (Hbefore 0%nat). lia.
           ++ intros [= <-]. specialize (Hbefore 0%nat x (Nat.lt_0_succ k) eq_refl). lia.
           ++ apply (Hbefore (S j)). lia.
Qed.

Lemma Qlt_bool_true (a b : Q) : Qlt_bool a b = true -> (a <= b)%Q.
Proof.
  unfold Qlt_bool. intros H. apply negb_true_iff in H.
  apply Qlt_le_weak. apply Qnot_le_lt. intros Hle.
  apply Qle_bool_iff in Hle. congruence.
Qed.

Lemma Qlt_bool_false (a b : Q) : Qlt_bool a b = false -> (b <= a)%Q.
Proof.
  unfold Qlt_bool. intros H. apply negb_false_iff in H.
  now apply Qle_bool_iff.
Qed.

Lemma py_min_least (xs : list Q) (m : Q) :
  py_min xs = Return m -> In m xs /\ forall y, In y xs -> (m <= y)%Q.
Proof.
  apply (py_min_key_least (fun x : Q => x) Qlt_bool Qle Qle_trans
                          Qlt_bool_true Qlt_bool_false).
Qed.

Lemma py_max_greatest (xs : list Q) (m : Q) :
  py_max xs = Return m -> In m xs /\ forall y, In y xs -> (y <= m)%Q.
Proof.
  apply (py_max_key_greatest (fun x : Q => x) Qlt_bool Qle Qle_trans
                             Qlt_bool_true Qlt_bool_false).
Qed.

(* ------------------------------------------------------------------ *)
(** ** The loop of the generator *)

Lemma hourly_step_run ch i acc w :
  hourly_step ch i acc w =
  match datetime_add ch (timedelta_hours i) with
  | Return h =>
      (Return (acc ++ [hourly_entry h (twister w (drawn w))]),
       set_drawn (S (drawn w)) w)
  | Raise e => (Raise e, w)
  end.
Proof.
  unfold hourly_step, bind, lift.
  destruct (datetime_add ch (timedelta_hours i)); reflexivity.
Qed.

Lemma for_in_hourly ch (offsets : list Z) :
  forall acc w l w',
    for_in offsets (hourly_step ch) acc w = (Return l, w') ->
    length l = (length acc + length offsets)%nat /\
    (forall k, (k < length acc)%nat -> nth_error l k = nth_error acc k) /\
    (forall k i, nth_error offsets k = Some i ->
       exists h, datetime_add ch (timedelta_hours i) = Return h /\
                 nth_error l (length acc + k) =
                 Some (hourly_entry h (twister w (drawn w + k)))).
Proof.
  induction offsets as [|i rest IH]; intros acc w l w'; cbn [for_in].
  - unfold ret. intros [= <- <-]. repeat split.
    + cbn. lia.
    + intros [|k] i; discriminate.
  - intros H. apply bind_Return in H. destruct H as [acc1 [w1 [Hstep Hrest]]].
    rewrite hourly_step_run in Hstep.
    destruct (datetime_add ch (timedelta_hours i)) as [h|e] eqn:Eh; [|discriminate].
    injection Hstep as <- <-.
    destruct (IH _ _ _ _ Hrest) as [Hlen [Hpre Hent]].
    rewrite length_app in Hlen, Hpre, Hent. cbn [length] in *.
    split; [lia|]. split.
    + intros k Hk. rewrite Hpre by lia. apply nth_error_app1. exact Hk.
    + intros [|k] j; cbn [nth_error].
      * intros [= <-]. exists h. split; [exact Eh|].
        rewrite Nat.add_0_r, Hpre by lia.
        rewrite nth_error_app2 by lia. now rewrite Nat.sub_diag, Nat.add_0_r.
      * intros Hj. destruct (Hent k j Hj) as [h' [Hh' Hnth]].
        exists h'. split; [exact Hh'|].
        cbn [drawn set_drawn twister] in Hnth.
        replace (length acc + S k)%nat with (length acc + 1 + k)%nat by lia.
        replace (drawn w + S k)%nat with (S (drawn w) + k)%nat by lia.
        exact Hnth.
Qed.

Lemma for_in_hourly_total ch (offsets : list Z) :
  (forall i, In i offsets -> exists h, datetime_add ch (timedelta_hours i) = Return h) ->
  forall acc w, exists l w', for_in offsets (hourly_step ch) acc w = (Return l, w').
Proof.
  induction offsets as [|i rest IH]; intros Hall acc w; cbn [for_in].
  - now exists acc, w.
  - destruct (Hall i (or_introl eq_refl)) as [h Hh].
    unfold bind. rewrite hourly_step_run, Hh.
    apply IH. intros j Hj. apply Hall. now right.
Qed.

Lemma In_range lo hi i : In i (range lo hi) <-> lo <= i < hi.
Proof.
  unfold range. rewrite in_map_iff. split.
  - intros [k [<- Hk]]. apply in_seq in Hk. lia.
  - intros H. exists (Z.to_nat (i - lo)). split; [lia|]. apply in_seq. lia.
Qed.

Lemma nth_error_range lo hi k :
  (k < Z.to_nat (hi - lo))%nat ->
  nth_error (range lo hi) k = Some (lo + Z.of_nat k).
Proof.
  intros Hk. unfold range.
  rewrite nth_error_map, nth_error_seq.
  apply Nat.ltb_lt in Hk. now rewrite Hk.
Qed.

Lemma length_range lo hi : length (range lo hi) = Z.to_nat (hi - lo).
Proof. unfold range. now rewrite length_map, length_seq. Qed.

(* ------------------------------------------------------------------ *)
(** ** What a returned summary is made of *)

Ltac unbind H :=
  let a := fresh "a" in
  let w := fresh "w" in
  let H1 := fresh "H" in
  apply bind_Return in H; destruct H as [a [w [H1 H]]].

Ltac unlift H :=
  let E := fresh "E" in
  let Ew := fresh "Ew" in
  apply lift_Return in H; destruct H as [E Ew]; subst.

Lemma generate_fallback_data_Return w s w' :
  generate_fallback_data w = (Return s, w') ->
  let now := clock w (ticks w) in
  let current_hour := replace_minute_second_microsecond now 0 0 0 in
  let prices := map Item.price (hourly_data s) in
  for_in (range (-24) 24) (hourly_step current_hour) [] (set_ticks (S (ticks w)) w)
    = (Return (hourly_data s), w') /\
  last_updated s = isoformat now /\
  (exists avg, py_div (py_sum prices) (len prices) = Return avg /\
               average_price s = py_round avg 2) /\
  py_min prices = Return (Extreme.value (min_price s)) /\
  py_max prices = Return (Extreme.value (max_price s)) /\
  (exists item,
      py_next (fun item => Qeq_bool (Item.price item) (Extreme.value (min_price s)))
              (hourly_data s) = Return item /\
      Extreme.time (min_price s) = Item.time item) /\
  (exists item,
      py_next (fun item => Qeq_bool (Item.price item) (Extreme.value (max_price s)))
              (hourly_data s) = Return item /\
      Extreme.time (max_price s) = Item.time item) /\
  (exists item,
      py_min_key (distance_to now) Z.ltb (hourly_data s) = Return item /\
      current_price s = Item.price item).
Proof.
  unfold generate_fallback_data. intros H.
  unbind H. unfold datetime_now in H0. injection H0 as <- <-.
  unbind H. unbind H. unlift H1.
  unbind H. unlift H1.
  unbind H. unlift H1.
  unbind H. unlift H1.
  unbind H. unlift H1.
  unbind H. unlift H1.
  unfold ret in H. injection H as <- <-.
  cbn [hourly_data last_updated average_price min_price max_price current_price
       Extreme.value Extreme.time].
  repeat split; try assumption.
  - eexists; split; [eassumption | reflexivity].
  - eexists; split; [eassumption | reflexivity].
  - eexists; split; [eassumption | reflexivity].
  - eexists; split; [eassumption | reflexivity].
Qed.

Lemma generated_entries w s w' :
  generate_fallback_data w = (Return s, w') ->
  let current_hour := replace_minute_second_microsecond (clock w (ticks w)) 0 0 0 in
  length (hourly_data s) = 48%nat /\
  forall k, (k < 48)%nat ->
    exists h,
      datetime_add current_hour (timedelta_hours (-24 + Z.of_nat k)) = Return h /\
      nth_error (hourly_data s) k = Some (hourly_entry h (twister w (drawn w + k))).
Proof.
  intros H. apply generate_fallback_data_Return in H. destruct H as [Hloop _].
  apply for_in_hourly in Hloop. destruct Hloop as [Hlen [_ Hent]].
  rewrite length_range in Hlen. split; [exact Hlen|].
  intros k Hk.
  destruct (Hent k (-24 + Z.of_nat k)) as [h [Hh Hnth]].
  { apply nth_error_range. exact Hk. }
  exists h. split; [exact Hh | exact Hnth].
Qed.

Lemma nth_error_generated w s w' k item :
  generate_fallback_data w = (Return s, w') ->
  nth_error (hourly_data s) k = Some item ->
  (k < 48)%nat /\
  exists h,
    datetime_add (replace_minute_second_microsecond (clock w (ticks w)) 0 0 0)
                 (timedelta_hours (-24 + Z.of_nat k)) = Return h /\
    item = hourly_entry h (twister w (drawn w + k)).
Proof.
  intros H Hnth. destruct (generated_entries _ _ _ H) as [Hlen Hent].
  assert (Hk : (k < 48)%nat).
  { rewrite <- Hlen. apply nth_error_Some. congruence. }
  split; [exact Hk|].
  destruct (Hent k Hk) as [h [Hh Hnth']]. exists h. split; [exact Hh|]. congruence.
Qed.

(* ------------------------------------------------------------------ *)
(** ** The hourly series *)


(* ------------------------------------------------------------------ *)
(** ** Minimum and maximum *)

Lemma first_at_weaken {A : Type} (P P' : A -> Prop) xs k (x : A) :
  (forall y, P y <-> P' y) -> first_at P xs k x -> first_at P' xs k x.
Proof.
  intros HP [Hk [Hx Hbefore]]. repeat split; [exact Hk | now apply HP |].
  intros j y Hj Hy Hy'. apply (Hbefore j y Hj Hy). now apply HP.
Qed.

(** C4. In every summary the generator returns, [hourly_data] is not
    empty, every price lies between [min_price.value] and
    [max_price.value], both values occur among the prices, and
    [min_price.time] and [max_price.time] are the timestamps of the first
    point of the list whose price equals the minimum and the maximum. *)
Theorem generated_extremes w s w' :
  generate_fallback_data w = (Return s, w') ->
  hourly_data s <> [] /\
  (forall p, In p (hourly_data s) ->
     (Extreme.value (min_price s) <= Item.price p <= Extreme.value (max_price s))%Q) /\
  In (Extreme.value (min_price s)) (map Item.price (hourly_data s)) /\
  In (Extreme.value (max_price s)) (map Item.price (hourly_data s)) /\
  (exists k item,
     first_at (fun p => (Item.price p == Extreme.value (min_price s))%Q)
              (hourly_data s) k item /\
     Extreme.time (min_price s) = Item.time item) /\
  (exists k item,
     first_at (fun p => (Item.price p == Extreme.value (max_price s))%Q)
              (hourly_data s) k item /\
     Extreme.time (max_price s) = Item.time item).
Proof.
  intros H.
  destruct (generated_entries _ _ _ H) as [Hlen _].
  apply generate_fallback_data_Return in H.
  destruct H as [_ [_ [_ [Hmin [Hmax [[imin [Hnmin Htmin]] [[imax [Hnmax Htmax]] _]]]]]]].
  apply py_min_least in Hmin. destruct Hmin as [Hmin_in Hmin_le].
  apply py_max_greatest in Hmax. destruct Hmax as [Hmax_in Hmax_ge].
  split; [|split; [|split; [|split; [|split]]]].
  - intros E. rewrite E in Hlen. discriminate.
  - intros p Hp. split.
    + apply Hmin_le. now apply in_map.
    + apply Hmax_ge. now apply in_map.
  - exact Hmin_in.
  - exact Hmax_in.
  - apply py_next_first in Hnmin. destruct Hnmin as [k Hk].
    exists k, imin. split; [|exact Htmin].
    revert Hk. apply first_at_weaken. intros y. apply Qeq_bool_iff.
  - apply py_next_first in Hnmax. destruct Hnmax as [k Hk].
    exists k, imax. split; [|exact Htmax].
    revert Hk. apply first_at_weaken. intros y. apply Qeq_bool_iff.
Qed.

(* ------------------------------------------------------------------ *)
(** ** The current price *)

(** C5. [current_price] is the price of a point of [hourly_data] whose
    timestamp is at least as close to [now] as every other point's, and
    strictly closer than every point before it in the list: the first
    point at minimum absolute distance from the generation instant. *)
Theorem generated_current_price_is_closest w s w' :
  generate_fallback_data w = (Return s, w') ->
  let now := clock w (ticks w) in
  exists k item,
    nth_error (hourly_data s) k = Some item /\
    current_price s = Item.price item /\
    (forall j y, nth_error (hourly_data s) j = Some y ->
       Z.abs (instant (fromisoformat (Item.time item)) - instant now)
       <= Z.abs (instant (fromisoformat (Item.time y)) - instant now)) /\
    (forall j y, (j < k)%nat -> nth_error (hourly_data s) j = Some y ->
       Z.abs (instant (fromisoformat (Item.time item)) - instant now)
       < Z.abs (instant (fromisoformat (Item.time y)) - instant now)).
Proof.
  intros H now.
  apply generate_fallback_data_Return in H.
  destruct H as [_ [_ [_ [_ [_ [_ [_ [item [Hmin Hcur]]]]]]]]].
  apply py_min_key_first in Hmin. destruct Hmin as [k [Hk [Hall Hbefore]]].
  exists k, item. split; [exact Hk|]. split; [exact Hcur|]. split.
  - intros j y Hy. apply (Hall j y Hy).
  - intros j y Hj Hy. apply (Hbefore j y Hj Hy).
Qed.

(** X11. Which point carries [current_price]: the entry of the current
    hour until half past (half past included, the tie going to the
    earlier entry), the entry of the next hour after that. *)
Lemma generated_current_price_index w s w' :
  generate_fallback_data w = (Return s, w') ->
  valid_datetime (clock w (ticks w)) ->
  exists item,
    nth_error (hourly_data s)
      (if 2 * past_the_hour (clock w (ticks w)) <=? us_per_hour
       then 24%nat else 25%nat)
    = Some item /\
    current_price s = Item.price item.
Proof.
  intros H Hvalid.
  set (now := clock w (ticks w)) in *.
  assert (Hdist : forall j y, nth_error (hourly_data s) j = Some y ->
            (j < 48)%nat /\
            distance_to now y
            = Z.abs ((Z.of_nat j - 24) * us_per_hour - past_the_hour now)).
  { intros j y Hy.
    destruct (nth_error_generated _ _ _ _ _ H Hy) as [Hj [h [Hh ->]]].
    split; [exact Hj|].
    apply datetime_add_Return in Hh. destruct Hh as [Hwall [Hoff _]].
    unfold distance_to, datetime_sub.
    cbn [hourly_entry Item.time isoformat fromisoformat].
    rewrite Hwall, Hoff. fold now. f_equal.
    unfold wall, timedelta_hours, past_the_hour.
    cbn [ordinal hour minute second microsecond utcoffset
         replace_minute_second_microsecond]. lia. }
  destruct (generated_entries _ _ _ H) as [_ Hent].
  destruct (Hent 24%nat) as [h24 [_ H24]]; [lia|].
  destruct (Hent 25%nat) as [h25 [_ H25]]; [lia|].
  apply generate_fallback_data_Return in H.
  destruct H as [_ [_ [_ [_ [_ [_ [_ [item [Hmin Hcur]]]]]]]]].
  fold now in Hmin.
  apply py_min_key_first in Hmin. destruct Hmin as [k [Hk [Hall Hbefore]]].
  exists item. split; [|exact Hcur].
  destruct (Hdist _ _ Hk) as [Hk48 Hditem].
  destruct (Hdist _ _ H24) as [_ Hd24].
  destruct (Hdist _ _ H25) as [_ Hd25].
  pose proof (Hall _ _ H24) as Hle24. pose proof (Hall _ _ H25) as Hle25.
  assert (Hpast : 0 <= past_the_hour now < us_per_hour).
  { destruct Hvalid as [_ [_ [Hm [Hs Hus]]]].
    unfold past_the_hour, us_per_hour, us_per_second in *. lia. }
  rewrite Hditem, Hd24 in Hle24. rewrite Hditem, Hd25 in Hle25.
  assert (Hlt24 : (24 < k)%nat ->
            Z.abs ((Z.of_nat k - 24) * us_per_hour - past_the_hour now)
            < Z.abs ((Z.of_nat 24 - 24) * us_per_hour - past_the_hour now)).
  { intros Hlt. rewrite <- Hditem, <- Hd24. apply (Hbefore 24%nat); assumption. }
  destruct (2 * past_the_hour now <=? us_per_hour) eqn:E.
  - apply Z.leb_le in E.
    assert (k = 24%nat); [|now subst k].
    unfold us_per_hour, us_per_second in *. lia.
  - apply Z.leb_gt in E.
    assert (k = 25%nat); [|now subst k].
    unfold us_per_hour, us_per_second in *. lia.
Qed.

(* ------------------------------------------------------------------ *)
(** ** Prices: base, noise and rounding *)

Lemma noise_of_bounds (u : Q) :
  (0 <= u < 1)%Q -> (-1.5 <= noise_of u <= 1.5)%Q.
Proof. unfold noise_of. intros [H0 H1]. split; lra. Qed.

Lemma base_price_bounds (h : Z) : (6.0 <= base_price h <= 12.0)%Q.
Proof.
  unfold base_price.
  destruct ((0 <=? h) && (h <? 6)); [split; lra|].
  destruct ((6 <=? h) && (h <? 9)); [split; lra|].
  destruct ((9 <=? h) && (h <? 17)); [split; lra|].
  destruct ((17 <=? h) && (h <? 22)); split; lra.
Qed.

Lemma round_half_even_bounds (lo hi : Z) (y : Q) :
  (inject_Z lo <= y <= inject_Z hi)%Q -> lo <= round_half_even y <= hi.
Proof.
  intros [Hlo Hhi].
  assert (Hf_lo : lo <= Qfloor y).
  { rewrite <- (Qfloor_Z lo). now apply Qfloor_resp_le. }
  assert (Hf_hi : Qfloor y <= hi).
  { rewrite <- (Qfloor_Z hi). now apply Qfloor_resp_le. }
  pose proof (Qfloor_le y) as Hfl.
  assert (Hup : (1 # 2 <= y - inject_Z (Qfloor y))%Q -> Qfloor y + 1 <= hi).
  { intros Hhalf.
    assert (Hlt : (inject_Z (Qfloor y) < inject_Z hi)%Q) by lra.
    rewrite <- Zlt_Qlt in Hlt. lia. }
  unfold round_half_even.
  destruct (Qcompare_spec (y - inject_Z (Qfloor y)) (1 # 2)) as [E|E|E].
  - destruct (Z.even (Qfloor y)); [lia|].
    split; [lia|]. apply Hup. rewrite E. apply Qle_refl.
  - lia.
  - split; [lia|]. apply Hup. now apply Qlt_le_weak.
Qed.

Lemma py_round_2_within (x : Q) :
  (4.5 <= x <= 13.5)%Q -> (4.5 <= py_round x 2 <= 13.5)%Q.
Proof.
  intros [Hlo Hhi]. unfold py_round. cbn [pow10].
  change (10 * (10 * 1))%positive with 100%positive.
  assert (H : 450 <= round_half_even (x * inject_Z 100) <= 1350).
  { apply round_half_even_bounds. unfold inject_Z. split; lra. }
  unfold Qle. cbn [Qnum Qden]. lia.
Qed.

Lemma hourly_entry_price_within (h : datetime) (u : Q) :
  (0 <= u < 1)%Q -> (4.5 <= Item.price (hourly_entry h u) <= 13.5)%Q.
Proof.
  intros Hu. cbn [hourly_entry Item.price]. apply py_round_2_within.
  pose proof (noise_of_bounds u Hu). pose proof (base_price_bounds (hour h)).
  split; lra.
Qed.


(** C10. Every hourly price of a generated summary, and with them
    [min_price.value], [max_price.value] and [current_price], lies in the
    closed interval [4.5, 13.5]. *)
Theorem generated_prices_within_band w s w' :
  generate_fallback_data w = (Return s, w') ->
  (forall n, 0 <= twister w n < 1)%Q ->
  (forall p, In p (hourly_data s) -> (4.5 <= Item.price p <= 13.5)%Q) /\
  (4.5 <= Extreme.value (min_price s) <= 13.5)%Q /\
  (4.5 <= Extreme.value (max_price s) <= 13.5)%Q /\
  (4.5 <= current_price s <= 13.5)%Q.
Proof.
  intros H Hu.
  assert (Hall : forall p, In p (hourly_data s) -> (4.5 <= Item.price p <= 13.5)%Q).
  { intros p Hp. apply In_nth_error in Hp. destruct Hp as [k Hk].
    destruct (nth_error_generated _ _ _ _ _ H Hk) as [_ [h [_ ->]]].
    apply hourly_entry_price_within, Hu. }
  apply generate_fallback_data_Return in H.
  destruct H as [_ [_ [_ [Hmin [Hmax [_ [_ [item [Hkey Hcur]]]]]]]]].
  apply py_min_least in Hmin. destruct Hmin as [Hmin _].
  apply py_max_greatest in Hmax. destruct Hmax as [Hmax _].
  apply py_min_key_least
    with (le := Z.le) in Hkey; [|exact Z.le_trans|intros a b; lia|intros a b; lia].
  destruct Hkey as [Hitem _].
  split; [exact Hall|]. split; [|split].
  - apply in_map_iff in Hmin. destruct Hmin as [p [<- Hp]]. now apply Hall.
  - apply in_map_iff in Hmax. destruct Hmax as [p [<- Hp]]. now apply Hall.
  - rewrite Hcur. now apply Hall.
Qed.

(* ------------------------------------------------------------------ *)
(** ** The generator returns *)

Lemma current_hour_offsets_in_range (now : datetime) (i : Z) :
  0 <= hour now < 24 -> 2 <= ordinal now <= MAXORDINAL - 1 -> -24 <= i < 24 ->
  exists h,
    datetime_add (replace_minute_second_microsecond now 0 0 0) (timedelta_hours i)
    = Return h.
Proof.
  intros Hh Ho Hi. apply datetime_add_total.
  unfold wall, timedelta_hours. cbn [ordinal hour minute second microsecond
    replace_minute_second_microsecond].
  set (t := _ + i * us_per_hour).
  assert (Ht : (ordinal now - 1) * us_per_day <= t < (ordinal now + 2) * us_per_day).
  { unfold t, us_per_day, us_per_hour, us_per_second. lia. }
  clearbody t. destruct Ht as [Ht1 Ht2]. split.
  - apply Z.lt_le_trans with (ordinal now - 1); [lia|].
    apply Z.div_le_lower_bound; [reflexivity | lia].
  - apply Z.lt_succ_r. apply Z.div_lt_upper_bound; [reflexivity|].
    unfold MAXORDINAL, us_per_day, us_per_hour, us_per_second in *. lia.
Qed.

Lemma find_exists {A : Type} (f : A -> bool) (xs : list A) (x : A) :
  In x xs -> f x = true -> exists y, find f xs = Some y.
Proof.
  intros Hin Hx. destruct (find f xs) as [y|] eqn:E; [now exists y|].
  pose proof (find_none f xs E x Hin). congruence.
Qed.

Lemma py_next_found (m : Q) (items : list Item.t) :
  In m (map Item.price items) ->
  exists item,
    py_next (fun item => Qeq_bool (Item.price item) m) items = Return item.
Proof.
  intros Hin. apply in_map_iff in Hin. destruct Hin as [p [<- Hp]].
  unfold py_next.
  destruct (find_exists (fun item => Qeq_bool (Item.price item) (Item.price p))
                        items p Hp (Qeq_bool_refl _)) as [y ->].
  now exists y.
Qed.

(** The generator has no failure path: for every clock reading whose
    date leaves one day of room on both sides, it returns a summary. *)
Lemma generate_fallback_data_returns w :
  0 <= hour (clock w (ticks w)) < 24 ->
  2 <= ordinal (clock w (ticks w)) <= MAXORDINAL - 1 ->
  exists s w', generate_fallback_data w = (Return s, w').
Proof.
  intros Hh Ho.
  set (now := clock w (ticks w)) in *.
  destruct (for_in_hourly_total (replace_minute_second_microsecond now 0 0 0)
              (range (-24) 24)) with (acc := @nil Item.t)
              (w := set_ticks (S (ticks w)) w) as [l [w2 Hloop]].
  { intros i Hi. apply In_range in Hi.
    now apply current_hour_offsets_in_range. }
  pose proof (for_in_hourly _ _ _ _ _ _ Hloop) as [Hlen _].
  rewrite length_range in Hlen. cbn in Hlen.
  assert (Hdiv : exists avg,
             py_div (py_sum (map Item.price l)) (len (map Item.price l)) = Return avg).
  { unfold py_div, len. rewrite length_map, Hlen. cbn. eexists. reflexivity. }
  destruct Hdiv as [avg Hdiv].
  destruct l as [|p l']; [discriminate|].
  destruct (py_min (map Item.price (p :: l'))) as [mn|] eqn:Hmin; [|discriminate].
  destruct (py_max (map Item.price (p :: l'))) as [mx|] eqn:Hmax; [|discriminate].
  destruct (py_next_found mn (p :: l')) as [imin Himin].
  { now apply py_min_least in Hmin. }
  destruct (py_next_found mx (p :: l')) as [imax Himax].
  { now apply py_max_greatest in Hmax. }
  destruct (py_min_key (distance_to now) Z.ltb (p :: l')) as [cur|] eqn:Hcur;
    [|discriminate].
  unfold generate_fallback_data.
  unfold bind at 1. unfold datetime_now. fold now.
  unfold bind at 1. rewrite Hloop.
  unfold bind at 1. unfold lift at 1. rewrite Hdiv.
  unfold bind at 1. unfold lift at 1. rewrite Hmin.
  unfold bind at 1. unfold lift at 1. rewrite Hmax.
  unfold bind at 1. unfold lift at 1. rewrite Himin.
  unfold bind at 1. unfold lift at 1. rewrite Himax.
  unfold bind at 1. unfold lift at 1. rewrite Hcur.
  unfold ret. eexists. eexists. reflexivity.
Qed.

(* ------------------------------------------------------------------ *)
(** ** What a computation leaves alone *)

Section Frame.
Context {X : Type}.
Variable component : world -> X.

Lemma keeps_ret {A : Type} (a : A) : keeps component (ret a).
Proof. intros w. reflexivity. Qed.

Lemma keeps_lift {A : Type} (r : result A) : keeps component (lift r).
Proof. intros w. reflexivity. Qed.

Lemma keeps_requests_get u ps : keeps component (requests_get u ps).
Proof. intros w. unfold requests_get. destruct (network w _); reflexivity. Qed.

Lemma keeps_bind {A B : Type} (c : M A) (k : A -> M B) :
  keeps component c -> (forall a, keeps component (k a)) ->
  keeps component (bind c k).
Proof.
  intros Hc Hk w. unfold bind. specialize (Hc w).
  destruct (c w) as [[a|e] w1]; cbn [snd] in *.
  - rewrite (Hk a w1). exact Hc.
  - exact Hc.
Qed.

Lemma keeps_try_except {A : Type} (body : M A) (handler : exn -> M A) :
  keeps component body -> (forall e, keeps component (handler e)) ->
  keeps component (try_except body handler).
Proof.
  intros Hb Hh w. unfold try_except. specialize (Hb w).
  destruct (body w) as [[a|e] w1]; cbn [snd] in *.
  - exact Hb.
  - rewrite (Hh e w1). exact Hb.
Qed.

Lemma keeps_for_in {I S : Type} (xs : list I) (body : I -> S -> M S) :
  (forall x acc, keeps component (body x acc)) ->
  forall acc, keeps component (for_in xs body acc).
Proof.
  intros Hbody. induction xs as [|x rest IH]; intros acc; cbn [for_in].
  - apply keeps_ret.
  - apply keeps_bind; [apply Hbody | exact IH].
Qed.
End Frame.

Lemma keeps_disk_print l : keeps disk (print l).
Proof. intros w. reflexivity. Qed.

Lemma keeps_clock_print l : keeps clock (print l).
Proof. intros w. reflexivity. Qed.

Lemma keeps_ticks_print l : keeps ticks (print l).
Proof. intros w. reflexivity. Qed.

Lemma keeps_disk_datetime_now : keeps disk datetime_now.
Proof. intros w. reflexivity. Qed.

Lemma keeps_clock_datetime_now : keeps clock datetime_now.
Proof. intros w. reflexivity. Qed.

Lemma keeps_disk_random_random : keeps disk random_random.
Proof. intros w. reflexivity. Qed.

Create HintDb frame.
#[local] Hint Resolve keeps_ret keeps_lift keeps_requests_get
  keeps_disk_print keeps_clock_print keeps_ticks_print
  keeps_disk_datetime_now keeps_clock_datetime_now
  keeps_disk_random_random : frame.

Ltac frame_step :=
  lazymatch goal with
  | |- keeps _ (bind _ _) => apply keeps_bind; [|intro]
  | |- keeps _ (try_except _ _) => apply keeps_try_except; [|intro]
  | |- keeps _ (for_in _ _ _) => apply keeps_for_in; intros
  | |- keeps _ (if ?b then _ else _) => destruct b
  | |- keeps _ (match ?x with _ => _ end) => destruct x
  | |- keeps _ _ => solve [auto with frame]
  end.

Lemma keeps_disk_fetch_entsoe_data : keeps disk fetch_entsoe_data.
Proof.
  unfold fetch_entsoe_data. cbv zeta. repeat frame_step.
Qed.

Lemma keeps_clock_fetch_entsoe_data : keeps clock fetch_entsoe_data.
Proof.
  unfold fetch_entsoe_data. cbv zeta. repeat frame_step.
Qed.

(** The fetcher reads the clock once, whichever way it ends. *)
Lemma ticks_fetch_entsoe_data w :
  ticks (snd (fetch_entsoe_data w)) = S (ticks w).
Proof.
  unfold fetch_entsoe_data.
  match goal with |- context [try_except (bind datetime_now ?k) ?h] =>
    assert (Hk : forall a, keeps ticks (k a))
      by (intro; cbv zeta; repeat frame_step);
    assert (Hh : forall e, keeps ticks (h e))
      by (intro; repeat frame_step);
    set (rest := k) in *; set (handler := h) in *
  end.
  unfold try_except, bind, datetime_now.
  specialize (Hk (clock w (ticks w)) (set_ticks (S (ticks w)) w)).
  destruct (rest _ _) as [[a|e] w1]; cbn [snd] in *.
  - exact Hk.
  - rewrite (Hh e w1). exact Hk.
Qed.

Lemma keeps_disk_generate_fallback_data : keeps disk generate_fallback_data.
Proof.
  unfold generate_fallback_data, hourly_step, random_uniform. cbv zeta.
  repeat frame_step.
Qed.

Lemma keeps_disk_obtain_data : keeps disk obtain_data.
Proof.
  unfold obtain_data.
  repeat first
    [ apply keeps_disk_fetch_entsoe_data
    | apply keeps_disk_generate_fallback_data
    | frame_step ].
Qed.

(* ------------------------------------------------------------------ *)
(** ** The fetcher *)

Lemma fetch_entsoe_data_returns_None w :
  exists w1, fetch_entsoe_data w = (Return None, w1).
Proof.
  unfold fetch_entsoe_data, try_except.
  match goal with |- context [match ?body w with _ => _ end] =>
    destruct (body w) as [[a|e] w1] eqn:E end.
  - exists w1. f_equal. f_equal.
    unbind E. unbind E. unbind E. unbind E. unbind E. unbind E.
    match type of E with context [status_code ?r =? 200] =>
      destruct (status_code r =? 200) end.
    + unbind E. injection E as <- _. reflexivity.
    + unbind E. unbind E. injection E as <- _. reflexivity.
  - eexists. reflexivity.
Qed.

Lemma astimezone_utc_total (d : datetime) :
  0 < (wall d - utcoffset d * us_per_second) / us_per_day <= MAXORDINAL ->
  exists u, astimezone_utc d = Return u.
Proof.
  intros H. unfold astimezone_utc.
  destruct (datetime_add_total d (- (utcoffset d * us_per_second))) as [h ->].
  - replace (wall d + - (utcoffset d * us_per_second))
      with (wall d - utcoffset d * us_per_second) by lia. exact H.
  - eexists. reflexivity.
Qed.

Lemma midnight_shifted_total (now : datetime) (days : Z) :
  -1 <= days <= 2 ->
  3 <= ordinal now <= MAXORDINAL - 3 ->
  -86400 < utcoffset now < 86400 ->
  exists d u,
    datetime_add (replace_hour_minute_second_microsecond now 0 0 0 0)
                 (timedelta_days days) = Return d /\
    astimezone_utc d = Return u.
Proof.
  intros Hd Ho Hoff.
  destruct (datetime_add_total (replace_hour_minute_second_microsecond now 0 0 0 0)
                               (timedelta_days days)) as [d Hadd].
  { unfold wall, timedelta_days.
    cbn [ordinal hour minute second microsecond replace_hour_minute_second_microsecond].
    replace (ordinal now * us_per_day + 0 * us_per_hour + 0 * (60 * us_per_second)
             + 0 * us_per_second + 0 + days * us_per_day)
      with ((ordinal now + days) * us_per_day) by lia.
    rewrite Z.div_mul by discriminate. unfold MAXORDINAL in *. lia. }
  exists d.
  pose proof (datetime_add_Return _ _ _ Hadd) as [Hwall [Hutc _]].
  destruct (astimezone_utc_total d) as [u Hu]; [|exists u; now split].
  rewrite Hwall, Hutc. unfold wall, timedelta_days.
  cbn [ordinal hour minute second microsecond utcoffset
       replace_hour_minute_second_microsecond].
  set (t := _ - utcoffset now * us_per_second).
  assert (Ht : (ordinal now + days - 1) * us_per_day <= t
               < (ordinal now + days + 2) * us_per_day).
  { unfold t, us_per_day, us_per_hour, us_per_second. lia. }
  clearbody t. destruct Ht as [Ht1 Ht2]. split.
  - apply Z.lt_le_trans with (ordinal now + days - 1); [lia|].
    apply Z.div_le_lower_bound; [reflexivity | lia].
  - apply Z.lt_succ_r. apply Z.div_lt_upper_bound; [reflexivity|].
    unfold MAXORDINAL, us_per_day, us_per_hour, us_per_second in *. lia.
Qed.

(** With a clock reading away from the ends of the calendar the request
    is sent, and an answer with status 200 takes the branch that prints
    that parsing is not implemented and returns [None]. *)
Lemma fetch_entsoe_data_status_200 w :
  3 <= ordinal (clock w (ticks w)) <= MAXORDINAL - 3 ->
  -86400 < utcoffset (clock w (ticks w)) < 86400 ->
  (forall q, exists r, network w q = Answers r /\ status_code r = 200) ->
  fetch_entsoe_data w =
  (Return None,
   set_stdout
     (stdout w ++
      [Line "Successfully fetched data from ENTSO-E API, but XML parsing not implemented"])
     (set_ticks (S (ticks w)) w)).
Proof.
  intros Ho Hoff Hnet.
  destruct (midnight_shifted_total (clock w (ticks w)) (-1)) as [d1 [u1 [Hd1 Hu1]]];
    [lia | exact Ho | exact Hoff |].
  destruct (midnight_shifted_total (clock w (ticks w)) 2) as [d2 [u2 [Hd2 Hu2]]];
    [lia | exact Ho | exact Hoff |].
  unfold fetch_entsoe_data, try_except.
  unfold bind at 1. unfold datetime_now at 1.
  unfold bind at 1. unfold lift at 1.
  change (- timedelta_days 1) with (timedelta_days (-1)). rewrite Hd1.
  unfold bind at 1. unfold lift at 1. rewrite Hu1.
  unfold bind at 1. unfold lift at 1. rewrite Hd2.
  unfold bind at 1. unfold lift at 1. rewrite Hu2.
  unfold bind at 1. unfold requests_get at 1.
  cbn [network set_ticks].
  match goal with |- context [network w ?q] =>
    destruct (Hnet q) as [r [-> Hr]] end.
  rewrite Hr. reflexivity.
Qed.

(* ------------------------------------------------------------------ *)
(** ** The writer *)

Lemma save_data_writable data w :
  writable (disk w) = true ->
  exists w',
    save_data data w = (Return tt, w') /\
    data_dir (disk w') = IsDirectory /\
    prices_json (disk w') = RegularFile (JsonDocument 2 data) true.
Proof.
  destruct w as [c t tw dr net out [cw dd dw pj]]. unfold writable.
  cbn [disk data_dir cwd_writable data_writable prices_json].
  destruct dd; [| destruct pj as [|ct wr|] |]; intros H; try discriminate;
    subst; eexists; (split; [reflexivity|]); split; reflexivity.
Qed.



(* ------------------------------------------------------------------ *)
(** ** main *)

Lemma main_obtains_then_saves w :
  main w =
  bind obtain_data
       (fun data => save_data data ;;
                    print (Line "Data update completed successfully!")) w.
Proof.
  unfold main, obtain_data.
  rewrite bind_assoc. apply bind_ext. intros [] w0.
  rewrite bind_assoc. reflexivity.
Qed.

Lemma obtain_data_falls_back w :
  obtain_data w =
  (print (Line "Fetching electricity prices for Finland...") ;;
   fetch_entsoe_data ;;
   generated <- generate_fallback_data ;;
   print (Line "Using generated fallback data") ;;
   ret generated) w.
Proof.
  unfold obtain_data. apply bind_ext. intros [] w0.
  destruct (fetch_entsoe_data_returns_None w0) as [w1 E].
  match goal with |- _ = ?rhs => set (r := rhs) end.
  unfold bind at 1. rewrite E. subst r.
  unfold bind at 3. rewrite E. reflexivity.
Qed.

(* ------------------------------------------------------------------ *)
(** ** The average *)



(* ------------------------------------------------------------------ *)
(** ** From the fetch to the file *)

Lemma save_data_unwritable data w :
  writable (disk w) = false -> exists e w', save_data data w = (Raise e, w').
Proof.
  destruct w as [c t tw dr net out [cw dd dw pj]]. unfold writable.
  cbn [disk data_dir cwd_writable data_writable prices_json].
  destruct dd; [| destruct pj as [|ct wr|] |]; intros H; try discriminate;
    subst; eexists; eexists; reflexivity.
Qed.

Lemma save_data_Return data w w' :
  save_data data w = (Return tt, w') ->
  writable (disk w) = true /\
  data_dir (disk w') = IsDirectory /\
  prices_json (disk w') = RegularFile (JsonDocument 2 data) true.
Proof.
  intros H. destruct (writable (disk w)) eqn:E.
  - destruct (save_data_writable data w E) as [w'' [Hs Hd]].
    rewrite H in Hs. injection Hs as <-. split; [reflexivity | exact Hd].
  - destruct (save_data_unwritable data w E) as [e [w'' Hs]]. congruence.
Qed.

(** The world in which [main] calls the generator: after its first
    line and the fetch. *)
Lemma obtain_data_Return_at w s w2 :
  obtain_data w = (Return s, w2) ->
  exists w1',
    generate_fallback_data
      (run_world fetch_entsoe_data
         (run_world (print (Line "Fetching electricity prices for Finland...")) w))
    = (Return s, w1') /\
    disk w2 = disk w.
Proof.
  intros H.
  pose proof (keeps_disk_obtain_data w) as Hdisk. rewrite H in Hdisk.
  cbn [snd] in Hdisk.
  rewrite obtain_data_falls_back in H.
  unbind H. unbind H. unbind H. unbind H. injection H as <- <-.
  exists w3. split; [|exact Hdisk].
  unfold run_world. rewrite H0. cbn [snd]. rewrite H1. cbn [snd]. exact H2.
Qed.

Lemma obtain_data_returns w :
  0 <= hour (clock w (S (ticks w))) < 24 ->
  2 <= ordinal (clock w (S (ticks w))) <= MAXORDINAL - 1 ->
  exists s w2, obtain_data w = (Return s, w2).
Proof.
  intros Hh Ho. rewrite obtain_data_falls_back.
  unfold bind at 1. unfold print at 1.
  set (w0 := set_stdout _ w).
  destruct (fetch_entsoe_data_returns_None w0) as [w1 Hf].
  assert (Hclock : clock w1 = clock w).
  { pose proof (keeps_clock_fetch_entsoe_data w0) as H. now rewrite Hf in H. }
  assert (Hticks : ticks w1 = S (ticks w)).
  { pose proof (ticks_fetch_entsoe_data w0) as H. now rewrite Hf in H. }
  destruct (generate_fallback_data_returns w1) as [s [w1' Hg]].
  { now rewrite Hclock, Hticks. }
  { now rewrite Hclock, Hticks. }
  unfold bind at 1. rewrite Hf.
  unfold bind at 1. rewrite Hg.
  eexists. eexists. reflexivity.
Qed.

Lemma main_saves w s w2 :
  obtain_data w = (Return s, w2) ->
  main w = (save_data s ;; print (Line "Data update completed successfully!")) w2.
Proof.
  intros H. rewrite main_obtains_then_saves. unfold bind at 1. now rewrite H.
Qed.

(** C1. Whatever the request does (it raises, or it is answered with any
    status), [fetch_entsoe_data] returns [None] and raises nothing;
    [main] then runs the generator, and when the disk is writable (and
    the clock reading leaves the generator its 48 hours of calendar) it
    returns normally with the generated summary in the output file. *)
Theorem fetch_never_raises_and_main_falls_back w :
  (exists w1, fetch_entsoe_data w = (Return None, w1)) /\
  obtain_data w =
    (print (Line "Fetching electricity prices for Finland...") ;;
     fetch_entsoe_data ;;
     generated <- generate_fallback_data ;;
     print (Line "Using generated fallback data") ;;
     ret generated) w /\
  (writable (disk w) = true ->
   0 <= hour (clock w (S (ticks w))) < 24 ->
   2 <= ordinal (clock w (S (ticks w))) <= MAXORDINAL - 1 ->
   exists s w1' w3,
     generate_fallback_data
       (run_world fetch_entsoe_data
          (run_world (print (Line "Fetching electricity prices for Finland...")) w))
     = (Return s, w1') /\
     main w = (Return tt, w3) /\
     prices_json (disk w3) = RegularFile (JsonDocument 2 s) true).
Proof.
  split; [apply fetch_entsoe_data_returns_None|].
  split; [apply obtain_data_falls_back|].
  intros Hw Hh Ho.
  destruct (obtain_data_returns w Hh Ho) as [s [w2 Hobt]].
  destruct (obtain_data_Return_at _ _ _ Hobt) as [w1' [Hgen Hdisk]].
  destruct (save_data_writable s w2) as [w3 [Hsave [_ Hfile]]];
    [now rewrite Hdisk|].
  exists s, w1'. eexists. split; [exact Hgen|].
  rewrite (main_saves _ _ _ Hobt). unfold bind. rewrite Hsave.
  split; reflexivity || exact Hfile.
Qed.

(** C2. A request answered with status 200 takes the branch that only
    reports that parsing is not implemented and returns [None]; whenever
    the fetcher returns, it returns [None]; and whenever [main] returns,
    the document in the output file is the summary the generator
    returned in that run. *)
Theorem status_200_still_persists_generated_data w :
  (3 <= ordinal (clock w (ticks w)) <= MAXORDINAL - 3 ->
   -86400 < utcoffset (clock w (ticks w)) < 86400 ->
   (forall q, exists r, network w q = Answers r /\ status_code r = 200) ->
   fetch_entsoe_data w =
   (Return None,
    set_stdout
      (stdout w ++
       [Line "Successfully fetched data from ENTSO-E API, but XML parsing not implemented"])
      (set_ticks (S (ticks w)) w))) /\
  (forall r w1, fetch_entsoe_data w = (Return r, w1) -> r = None) /\
  (forall w3, main w = (Return tt, w3) ->
     exists s w1',
       generate_fallback_data
         (run_world fetch_entsoe_data
            (run_world (print (Line "Fetching electricity prices for Finland...")) w))
       = (Return s, w1') /\
       prices_json (disk w3) = RegularFile (JsonDocument 2 s) true).
Proof.
  split; [apply fetch_entsoe_data_status_200|]. split.
  - intros r w1 H. destruct (fetch_entsoe_data_returns_None w) as [w1' H'].
    congruence.
  - intros w3 H. rewrite main_obtains_then_saves in H.
    unbind H. unbind H.
    destruct (obtain_data_Return_at _ _ _ H0) as [w1' [Hgen _]].
    destruct a0. apply save_data_Return in H1. destruct H1 as [_ [_ Hfile]].
    exists a, w1'. split; [exact Hgen|].
    unfold print in H. injection H as <-. exact Hfile.
Qed.


(* ------------------------------------------------------------------ *)
(** ** The theorems at concrete runs *)


(** C4 on the run of [world_noisy]. *)
Lemma generated_extremes_run :
  exists s w',
    generate_fallback_data world_noisy = (Return s, w') /\
    hourly_data s <> [] /\
    forall p, In p (hourly_data s) ->
      (Extreme.value (min_price s) <= Item.price p <= Extreme.value (max_price s))%Q.
Proof.
  eexists. eexists. split; [vm_compute; reflexivity|].
  split.
  - refine (proj1 (generated_extremes world_noisy _ _ _)). vm_compute; reflexivity.
  - refine (proj1 (proj2 (generated_extremes world_noisy _ _ _))).
    vm_compute; reflexivity.
Defined.

(** C5 on the run of [world_noisy]. *)
Lemma generated_current_price_is_closest_run :
  exists s w',
    generate_fallback_data world_noisy = (Return s, w') /\
    exists k item,
      nth_error (hourly_data s) k = Some item /\
      current_price s = Item.price item /\
      (forall j y, nth_error (hourly_data s) j = Some y ->
         Z.abs (instant (fromisoformat (Item.time item)) - instant now0)
         <= Z.abs (instant (fromisoformat (Item.time y)) - instant now0)) /\
      (forall j y, (j < k)%nat -> nth_error (hourly_data s) j = Some y ->
         Z.abs (instant (fromisoformat (Item.time item)) - instant now0)
         < Z.abs (instant (fromisoformat (Item.time y)) - instant now0)).
Proof.
  eexists. eexists. split; [vm_compute; reflexivity|].
  refine (generated_current_price_is_closest world_noisy _ _ _).
  vm_compute; reflexivity.
Defined.



(** C10 on the run of [world_noisy]. *)
Lemma generated_prices_within_band_run :
  exists s w',
    generate_fallback_data world_noisy = (Return s, w') /\
    (forall p, In p (hourly_data s) -> (4.5 <= Item.price p <= 13.5)%Q) /\
    (4.5 <= current_price s <= 13.5)%Q.
Proof.
  eexists. eexists. split; [vm_compute; reflexivity|].
  assert (H : (forall n, 0 <= twister world_noisy n < 1)%Q).
  { intros n. cbn [twister world_noisy]. unfold Qle, Qlt. cbn [Qnum Qden].
    pose proof (Nat.mod_upper_bound n 4). lia. }
  split.
  - refine (proj1 (generated_prices_within_band world_noisy _ _ _ H)).
    vm_compute; reflexivity.
  - refine (proj2 (proj2 (proj2 (generated_prices_within_band world_noisy _ _ _ H)))).
    vm_compute; reflexivity.
Defined.

(** C1 on a run against a server that answers 500, and on a run with
    the network down: [main] returns and the file holds a document. *)
Lemma fetch_never_raises_and_main_falls_back_run :
  (exists s w3,
     main world500 = (Return tt, w3) /\
     prices_json (disk w3) = RegularFile (JsonDocument 2 s) true) /\
  (exists s w3,
     main world_offline = (Return tt, w3) /\
     prices_json (disk w3) = RegularFile (JsonDocument 2 s) true).
Proof.
  split.
  - destruct (proj2 (proj2 (fetch_never_raises_and_main_falls_back world500)))
      as [s [w1' [w3 [_ H]]]].
    + reflexivity.
    + cbn. lia.
    + cbn. unfold MAXORDINAL. lia.
    + exists s, w3. exact H.
  - destruct (proj2 (proj2 (fetch_never_raises_and_main_falls_back world_offline)))
      as [s [w1' [w3 [_ H]]]].
    + reflexivity.
    + cbn. lia.
    + cbn. unfold MAXORDINAL. lia.
    + exists s, w3. exact H.
Defined.

(** C2 on the run of [world0], whose server answers 200. *)
Lemma status_200_still_persists_generated_data_run :
  fetch_entsoe_data world0 =
  (Return None,
   set_stdout
     [Line "Successfully fetched data from ENTSO-E API, but XML parsing not implemented"]
     (set_ticks 1 world0)).
Proof.
  refine (proj1 (status_200_still_persists_generated_data world0) _ _ _).
  - cbn. unfold MAXORDINAL. lia.
  - cbn. lia.
  - intros q. eexists. split; reflexivity.
Defined.


(* ================================================================== *)
(** * Further properties *)

(* ------------------------------------------------------------------ *)
(** ** The fetcher, path by path *)

(** X1. Whatever the clock and the network do, the fetcher returns
    [None], has read the clock once and printed one or two lines, and
    has changed nothing else of the world. *)
Theorem fetch_entsoe_data_effect w :
  exists out,
    fetch_entsoe_data w =
    (Return None, set_stdout (stdout w ++ out) (set_ticks (S (ticks w)) w)) /\
    (length out = 1 \/ length out = 2)%nat.
Proof.
  unfold fetch_entsoe_data, try_except.
  unfold bind at 1. unfold datetime_now at 1.
  set (w0 := set_ticks (S (ticks w)) w).
  unfold bind at 1. unfold lift at 1.
  destruct (datetime_add _ _) as [d1|e];
    [|exists [ExceptionWhenFetching e]; split; [reflexivity | now left]].
  unfold bind at 1. unfold lift at 1.
  destruct (astimezone_utc d1) as [u1|e];
    [|exists [ExceptionWhenFetching e]; split; [reflexivity | now left]].
  unfold bind at 1. unfold lift at 1.
  destruct (datetime_add _ _) as [d2|e];
    [|exists [ExceptionWhenFetching e]; split; [reflexivity | now left]].
  unfold bind at 1. unfold lift at 1.
  destruct (astimezone_utc d2) as [u2|e];
    [|exists [ExceptionWhenFetching e]; split; [reflexivity | now left]].
  unfold bind at 1. unfold requests_get at 1.
  destruct (network w0 _) as [r|e];
    [|exists [ExceptionWhenFetching e]; split; [reflexivity | now left]].
  destruct (status_code r =? 200).
  - eexists [_]. split; [reflexivity | now left].
  - exists [ErrorFetching (status_code r); ResponseBody (text r)].
    split; [|now right].
    unfold bind, print, ret. cbn [fst snd stdout set_stdout].
    unfold set_stdout. cbn. now rewrite <- app_assoc.
Qed.



(* ------------------------------------------------------------------ *)
(** ** The generator: what it consumes and when it raises *)

Lemma set_drawn_same w : set_drawn (drawn w) w = w.
Proof. now destruct w. Qed.

Lemma for_in_hourly_world ch (offsets : list Z) :
  forall acc w l w',
    for_in offsets (hourly_step ch) acc w = (Return l, w') ->
    w' = set_drawn (drawn w + length offsets) w.
Proof.
  induction offsets as [|i rest IH]; intros acc w l w'; cbn [for_in length].
  - unfold ret. intros [= _ <-]. now rewrite Nat.add_0_r, set_drawn_same.
  - intros H. apply bind_Return in H. destruct H as [acc1 [w1 [Hstep Hrest]]].
    rewrite hourly_step_run in Hstep.
    destruct (datetime_add ch (timedelta_hours i)); [|discriminate].
    injection Hstep as <- <-.
    rewrite (IH _ _ _ _ Hrest). unfold set_drawn. cbn. f_equal. lia.
Qed.

Lemma for_in_hourly_Raise ch (offsets : list Z) :
  forall acc w e w',
    for_in offsets (hourly_step ch) acc w = (Raise e, w') -> e = OverflowError.
Proof.
  induction offsets as [|i rest IH]; intros acc w e w'; cbn [for_in].
  - discriminate.
  - unfold bind. rewrite hourly_step_run.
    destruct (datetime_add ch (timedelta_hours i)) as [h|e'] eqn:E.
    + apply IH.
    + intros [= <- _]. unfold datetime_add in E.
      destruct (_ && _); [discriminate|]. now injection E.
Qed.

(** Once the loop has returned its entries, nothing in the rest of the
    generator raises. *)
Lemma generate_fallback_data_after_loop w l w2 :
  for_in (range (-24) 24)
         (hourly_step (replace_minute_second_microsecond (clock w (ticks w)) 0 0 0))
         [] (set_ticks (S (ticks w)) w) = (Return l, w2) ->
  exists s, generate_fallback_data w = (Return s, w2).
Proof.
  intros Hloop.
  set (now := clock w (ticks w)) in *.
  pose proof (for_in_hourly _ _ _ _ _ _ Hloop) as [Hlen _].
  rewrite length_range in Hlen. cbn in Hlen.
  assert (Hdiv : exists avg,
             py_div (py_sum (map Item.price l)) (len (map Item.price l)) = Return avg).
  { unfold py_div, len. rewrite length_map, Hlen. cbn. eexists. reflexivity. }
  destruct Hdiv as [avg Hdiv].
  destruct l as [|p l']; [discriminate|].
  destruct (py_min (map Item.price (p :: l'))) as [mn|] eqn:Hmin; [|discriminate].
  destruct (py_max (map Item.price (p :: l'))) as [mx|] eqn:Hmax; [|discriminate].
  destruct (py_next_found mn (p :: l')) as [imin Himin].
  { now apply py_min_least in Hmin. }
  destruct (py_next_found mx (p :: l')) as [imax Himax].
  { now apply py_max_greatest in Hmax. }
  destruct (py_min_key (distance_to now) Z.ltb (p :: l')) as [cur|] eqn:Hcur;
    [|discriminate].
  unfold generate_fallback_data.
  unfold bind at 1. unfold datetime_now. fold now.
  unfold bind at 1. rewrite Hloop.
  unfold bind at 1. unfold lift at 1. rewrite Hdiv.
  unfold bind at 1. unfold lift at 1. rewrite Hmin.
  unfold bind at 1. unfold lift at 1. rewrite Hmax.
  unfold bind at 1. unfold lift at 1. rewrite Himin.
  unfold bind at 1. unfold lift at 1. rewrite Himax.
  unfold bind at 1. unfold lift at 1. rewrite Hcur.
  unfold ret. eexists. reflexivity.
Qed.

(** X3. For every clock reading that leaves a day of calendar on both
    sides, the generator returns a summary, having read the clock once
    and drawn exactly 48 random numbers and changed nothing else (it
    prints nothing and leaves the disk alone).  For any other reading
    the only exception it can raise is the [OverflowError] of the date
    arithmetic: [next] always finds its entry, [min] and [max] never see
    an empty list and the division is never by zero. *)
Theorem generate_fallback_data_effect w :
  (0 <= hour (clock w (ticks w)) < 24 ->
   2 <= ordinal (clock w (ticks w)) <= MAXORDINAL - 1 ->
   exists s,
     generate_fallback_data w =
     (Return s, set_drawn (drawn w + 48) (set_ticks (S (ticks w)) w))) /\
  (forall s w', generate_fallback_data w = (Return s, w') ->
     w' = set_drawn (drawn w + 48) (set_ticks (S (ticks w)) w)) /\
  (forall e w', generate_fallback_data w = (Raise e, w') -> e = OverflowError).
Proof.
  set (ch := replace_minute_second_microsecond (clock w (ticks w)) 0 0 0).
  destruct (for_in (range (-24) 24) (hourly_step ch) []
                   (set_ticks (S (ticks w)) w)) as [[l|e0] w2] eqn:Hloop.
  - pose proof (for_in_hourly_world _ _ _ _ _ _ Hloop) as Hw2.
    rewrite length_range in Hw2.
    change (Z.to_nat (24 - -24)) with 48%nat in Hw2.
    cbn [drawn set_ticks] in Hw2.
    destruct (generate_fallback_data_after_loop w l w2 Hloop) as [s Hs].
    split; [|split].
    + intros _ _. exists s. rewrite Hs. now subst w2.
    + intros s' w' H. rewrite Hs in H. injection H as _ <-. exact Hw2.
    + intros e w' H. rewrite Hs in H. discriminate.
  - split; [|split].
    + intros Hh Ho.
      destruct (for_in_hourly_total ch (range (-24) 24)) with (acc := @nil Item.t)
        (w := set_ticks (S (ticks w)) w) as [l [w3 Hl]].
      { intros i Hi. apply In_range in Hi.
        now apply current_hour_offsets_in_range. }
      rewrite Hloop in Hl. discriminate.
    + intros s w' H. apply generate_fallback_data_Return in H.
      destruct H as [H _]. fold ch in H. rewrite Hloop in H. discriminate.
    + intros e w' H.
      pose proof (for_in_hourly_Raise _ _ _ _ _ _ Hloop) as He0. subst e0.
      unfold generate_fallback_data in H. unfold bind at 1 in H.
      unfold datetime_now in H. unfold bind at 1 in H.
      fold ch in H. rewrite Hloop in H. now injection H.
Qed.

(* ------------------------------------------------------------------ *)
(** ** The generated timestamps *)

Lemma datetime_add_hours_on_the_hour d i h :
  minute d = 0 -> second d = 0 -> microsecond d = 0 ->
  datetime_add d (timedelta_hours i) = Return h ->
  minute h = 0 /\ second h = 0 /\ microsecond h = 0.
Proof.
  intros Hm Hs Hus. unfold datetime_add.
  destruct (_ && _); [|discriminate]. intros [= <-].
  cbn [minute second microsecond].
  unfold wall, timedelta_hours. rewrite Hm, Hs, Hus.
  replace (ordinal d * us_per_day + hour d * us_per_hour + 0 * (60 * us_per_second)
           + 0 * us_per_second + 0 + i * us_per_hour)
    with (us_per_hour * (24 * ordinal d + hour d + i))
    by (unfold us_per_day; lia).
  set (x := 24 * ordinal d + hour d + i).
  assert (Hrest : (us_per_hour * x) mod us_per_day = us_per_hour * (x mod 24)).
  { unfold us_per_day. rewrite (Z.mul_comm 24 us_per_hour).
    apply Z.mul_mod_distr_l; discriminate. }
  rewrite Hrest.
  assert (Hsecs : us_per_hour * (x mod 24) / us_per_second = (x mod 24) * 3600).
  { unfold us_per_hour.
    replace (3600 * us_per_second * (x mod 24))
      with ((x mod 24) * 3600 * us_per_second) by lia.
    apply Z.div_mul. discriminate. }
  rewrite Hsecs, Z.mod_mul by discriminate.
  repeat split; try reflexivity.
  unfold us_per_hour.
  replace (3600 * us_per_second * (x mod 24))
    with ((x mod 24) * 3600 * us_per_second) by lia.
  apply Z.mod_mul. discriminate.
Qed.

(** X4. [last_updated] is the clock reading itself, minutes and seconds
    included, while every hourly timestamp is a valid datetime on the
    hour (minute, second and microsecond are 0) carrying the UTC offset
    of that reading. *)
Theorem generated_timestamps_on_the_hour w s w' :
  generate_fallback_data w = (Return s, w') ->
  last_updated s = isoformat (clock w (ticks w)) /\
  forall item, In item (hourly_data s) ->
    let t := fromisoformat (Item.time item) in
    valid_datetime t /\
    minute t = 0 /\ second t = 0 /\ microsecond t = 0 /\
    utcoffset t = utcoffset (clock w (ticks w)).
Proof.
  intros H. split.
  - apply generate_fallback_data_Return in H. now destruct H as [_ [H _]].
  - intros item Hin t. subst t.
    apply In_nth_error in Hin. destruct Hin as [k Hk].
    destruct (nth_error_generated _ _ _ _ _ H Hk) as [_ [h [Hh ->]]].
    cbn [hourly_entry Item.time isoformat fromisoformat].
    destruct (fun Hm Hs Hus =>
                datetime_add_hours_on_the_hour _ _ _ Hm Hs Hus Hh)
      as [Hm [Hs Hus]]; try reflexivity.
    apply datetime_add_Return in Hh. destruct Hh as [_ [Hoff [Hhour Hord]]].
    unfold valid_datetime. rewrite Hm, Hs, Hus.
    unfold us_per_second. repeat split; try lia. exact Hoff.
Qed.

(* ------------------------------------------------------------------ *)
(** ** The average between the extremes *)

Lemma py_sum_bounds (lo hi : Q) (xs : list Q) :
  (forall x, In x xs -> lo <= x <= hi)%Q ->
  (lo * inject_Z (len xs) <= py_sum xs <= hi * inject_Z (len xs))%Q.
Proof.
  intros Hall. unfold py_sum, len.
  assert (Hgen : forall acc n,
            (lo * inject_Z (Z.of_nat n) <= acc <= hi * inject_Z (Z.of_nat n))%Q ->
            (lo * inject_Z (Z.of_nat (n + length xs))
             <= fold_left Qplus xs acc
             <= hi * inject_Z (Z.of_nat (n + length xs)))%Q).
  { induction xs as [|x rest IH]; intros acc n Hacc; cbn [fold_left length].
    - now rewrite Nat.add_0_r.
    - replace (n + S (length rest))%nat with (S n + length rest)%nat by lia.
      apply IH.
      + intros y Hy. apply Hall. now right.
      + destruct (Hall x (or_introl eq_refl)) as [Hx1 Hx2].
        rewrite Nat2Z.inj_succ. unfold Z.succ. rewrite inject_Z_plus.
        rewrite !Qmult_plus_distr_r. change (inject_Z 1) with 1%Q.
        destruct Hacc as [Ha1 Ha2].
        set (A := (lo * inject_Z (Z.of_nat n))%Q) in *.
        set (B := (hi * inject_Z (Z.of_nat n))%Q) in *.
        split; lra. }
  apply (Hgen 0%Q 0%nat). change (inject_Z (Z.of_nat 0)) with 0%Q. split; lra.
Qed.

Lemma hundredths_round_between (lo hi : Z) (x : Q) :
  (lo # 100 <= x <= hi # 100)%Q ->
  (lo # 100 <= py_round x 2 <= hi # 100)%Q.
Proof.
  intros [Hlo Hhi]. unfold py_round. cbn [pow10].
  change (10 * (10 * 1))%positive with 100%positive.
  assert (H : lo <= round_half_even (x * inject_Z 100) <= hi).
  { apply round_half_even_bounds.
    assert (E1 : (inject_Z lo == (lo # 100) * inject_Z 100)%Q).
    { unfold Qeq, inject_Z, Qmult. cbn [Qnum Qden]. lia. }
    assert (E2 : (inject_Z hi == (hi # 100) * inject_Z 100)%Q).
    { unfold Qeq, inject_Z, Qmult. cbn [Qnum Qden]. lia. }
    rewrite E1, E2.
    split; apply Qmult_le_compat_r; try assumption; discriminate. }
  unfold Qle. cbn [Qnum Qden]. lia.
Qed.

(** X5. [average_price] lies between [min_price.value] and
    [max_price.value]: rounding the mean to two decimals cannot carry it
    past a price, the prices being whole hundredths. *)
Theorem generated_average_between_extremes w s w' :
  generate_fallback_data w = (Return s, w') ->
  (Extreme.value (min_price s) <= average_price s
   <= Extreme.value (max_price s))%Q.
Proof.
  intros H.
  assert (Hhund : forall p, In p (map Item.price (hourly_data s)) ->
            p = Qmake (Qnum p) 100).
  { intros p Hp. apply in_map_iff in Hp. destruct Hp as [item [<- Hitem]].
    apply In_nth_error in Hitem. destruct Hitem as [k Hk].
    destruct (nth_error_generated _ _ _ _ _ H Hk) as [_ [h [_ ->]]].
    reflexivity. }
  destruct (generated_entries _ _ _ H) as [Hlen _].
  apply generate_fallback_data_Return in H.
  destruct H as [_ [_ [[avg [Hdiv Havg]] [Hmin [Hmax _]]]]].
  apply py_min_least in Hmin. destruct Hmin as [Hmin_in Hmin_le].
  apply py_max_greatest in Hmax. destruct Hmax as [Hmax_in Hmax_ge].
  set (prices := map Item.price (hourly_data s)) in *.
  set (mn := Extreme.value (min_price s)) in *.
  set (mx := Extreme.value (max_price s)) in *.
  assert (Hn : len prices = 48).
  { unfold len, prices. now rewrite length_map, Hlen. }
  unfold py_div in Hdiv. rewrite Hn in Hdiv. cbn [Z.eqb] in Hdiv.
  injection Hdiv as <-. rewrite Havg.
  rewrite (Hhund mn Hmin_in), (Hhund mx Hmax_in).
  apply hundredths_round_between.
  rewrite <- (Hhund mn Hmin_in), <- (Hhund mx Hmax_in).
  pose proof (py_sum_bounds mn mx prices) as Hsum.
  rewrite Hn in Hsum.
  destruct Hsum as [Hs1 Hs2].
  { intros x Hx. split; [now apply Hmin_le | now apply Hmax_ge]. }
  change (inject_Z 48) with (48 # 1)%Q in *.
  split.
  - apply Qle_shift_div_l; [reflexivity | exact Hs1].
  - apply Qle_shift_div_r; [reflexivity | exact Hs2].
Qed.

(* ------------------------------------------------------------------ *)
(** ** The writer: all or nothing *)



(* ------------------------------------------------------------------ *)
(** ** What a run prints *)

Lemma keeps_drawn_print l : keeps drawn (print l).
Proof. intros w. reflexivity. Qed.

Lemma keeps_drawn_datetime_now : keeps drawn datetime_now.
Proof. intros w. reflexivity. Qed.

Lemma keeps_stdout_datetime_now : keeps stdout datetime_now.
Proof. intros w. reflexivity. Qed.

Lemma keeps_stdout_random_random : keeps stdout random_random.
Proof. intros w. reflexivity. Qed.

Lemma keeps_stdout_os_makedirs_exist_ok : keeps stdout os_makedirs_exist_ok.
Proof.
  intros w. unfold os_makedirs_exist_ok.
  destruct (data_dir (disk w)); [destruct (cwd_writable (disk w))| |]; reflexivity.
Qed.

Lemma keeps_stdout_open_w : keeps stdout open_w.
Proof.
  intros w. unfold open_w.
  destruct (data_dir (disk w)); [reflexivity| |reflexivity].
  destruct (prices_json (disk w)) as [|c [|]|];
    [destruct (data_writable (disk w))| | |]; reflexivity.
Qed.

Lemma keeps_stdout_json_dump data n : keeps stdout (json_dump data n).
Proof.
  intros w. unfold json_dump. destruct (prices_json (disk w)); reflexivity.
Qed.

#[local] Hint Resolve keeps_drawn_print keeps_drawn_datetime_now
  keeps_stdout_datetime_now keeps_stdout_random_random
  keeps_stdout_os_makedirs_exist_ok keeps_stdout_open_w
  keeps_stdout_json_dump : frame.

Lemma keeps_drawn_fetch_entsoe_data : keeps drawn fetch_entsoe_data.
Proof.
  unfold fetch_entsoe_data. cbv zeta. repeat frame_step.
Qed.

Lemma keeps_stdout_generate_fallback_data : keeps stdout generate_fallback_data.
Proof.
  unfold generate_fallback_data, hourly_step, random_uniform. cbv zeta.
  repeat frame_step.
Qed.

Section Emits.
Variable P : line -> Prop.

Lemma emits_keeps {A : Type} (c : M A) : keeps stdout c -> emits P c.
Proof.
  intros H w. exists []. rewrite (H w), app_nil_r. split; [reflexivity | constructor].
Qed.

Lemma emits_print l : P l -> emits P (print l).
Proof.
  intros Hl w. exists [l]. split; [reflexivity | now repeat constructor].
Qed.

Lemma emits_bind {A B : Type} (c : M A) (k : A -> M B) :
  emits P c -> (forall a, emits P (k a)) -> emits P (bind c k).
Proof.
  intros Hc Hk w. unfold bind. destruct (Hc w) as [o1 [E1 F1]].
  destruct (c w) as [[a|e] w1]; cbn [snd] in *.
  - destruct (Hk a w1) as [o2 [E2 F2]]. exists (o1 ++ o2).
    rewrite E2, E1, app_assoc. split; [reflexivity | now apply Forall_app].
  - now exists o1.
Qed.

Lemma emits_try_except {A : Type} (body : M A) (handler : exn -> M A) :
  emits P body -> (forall e, emits P (handler e)) ->
  emits P (try_except body handler).
Proof.
  intros Hb Hh w. unfold try_except. destruct (Hb w) as [o1 [E1 F1]].
  destruct (body w) as [[a|e] w1]; cbn [snd] in *.
  - now exists o1.
  - destruct (Hh e w1) as [o2 [E2 F2]]. exists (o1 ++ o2).
    rewrite E2, E1, app_assoc. split; [reflexivity | now apply Forall_app].
Qed.

Lemma emits_ext {A : Type} (c c' : M A) :
  (forall w, c w = c' w) -> emits P c' -> emits P c.
Proof. intros E H w. rewrite E. apply H. Qed.
End Emits.

Ltac emits_step :=
  lazymatch goal with
  | |- emits _ (bind _ _) => apply emits_bind; [|intro]
  | |- emits _ (try_except _ _) => apply emits_try_except; [|intro]
  | |- emits _ (print _) => apply emits_print
  | |- emits _ (if ?b then _ else _) => destruct b
  | |- emits _ _ => apply emits_keeps; solve [auto with frame]
  end.

(** The lines of everything [main] runs before its last line are neither
    that last line nor the line of the branch for real data. *)
Lemma emits_before_completion :
  emits (fun l => l <> completed_line /\ l <> real_data_line)
        (data <- obtain_data ;; save_data data).
Proof.
  apply emits_bind.
  - apply (emits_ext _ _ _ obtain_data_falls_back).
    apply emits_bind; [|intro].
    { apply emits_print. split; discriminate. }
    apply emits_bind; [|intro].
    { unfold fetch_entsoe_data. cbv zeta.
      repeat first [ emits_step | split; discriminate ]. }
    apply emits_bind; [|intro].
    { apply emits_keeps, keeps_stdout_generate_fallback_data. }
    repeat first [ emits_step | split; discriminate ].
  - intro data. unfold save_data.
    repeat first [ emits_step | split; discriminate ].
Qed.

(** X8. [main] prints its last line, that the update completed, exactly
    when it returns normally, and it never prints the line of its branch
    for real data, which no run takes. *)
Theorem main_reports_completion_truthfully w :
  exists out,
    stdout (snd (main w)) = stdout w ++ out /\
    ~ In real_data_line out /\
    (In completed_line out <-> fst (main w) = Return tt).
Proof.
  rewrite main_obtains_then_saves.
  rewrite <- (bind_assoc obtain_data (fun data => save_data data)
                         (fun _ => print completed_line)).
  destruct (emits_before_completion w) as [o1 [E1 F1]].
  rewrite Forall_forall in F1.
  set (c := (data <- obtain_data ;; save_data data)) in *.
  unfold bind.
  destruct (c w) as [[[]|e] w1]; cbn [snd fst] in *.
  - exists (o1 ++ [completed_line]). unfold print. cbn [fst snd stdout set_stdout].
    rewrite E1, app_assoc. split; [reflexivity|]. split.
    + intros Hin. apply in_app_iff in Hin. destruct Hin as [Hin|[Hin|[]]].
      * now apply (F1 _ Hin).
      * discriminate.
    + split; [reflexivity|]. intros _. apply in_app_iff. right. now left.
  - exists o1. split; [exact E1|]. split.
    + intros Hin. now apply (F1 _ Hin).
    + split; [|discriminate]. intros Hin. now destruct (F1 _ Hin).
Qed.

(* ------------------------------------------------------------------ *)
(** ** A whole run *)



Lemma save_data_Return_lines data w w' :
  save_data data w = (Return tt, w') ->
  stdout w' = stdout w ++ [Line "Data saved to data/electricity-prices.json";
                           CurrentPrice (current_price data);
                           LastUpdated (last_updated data)] /\
  ticks w' = ticks w /\ drawn w' = drawn w.
Proof.
  destruct w as [c t tw dr net out [cw dd dw pj]].
  destruct dd; [destruct cw | destruct pj as [|ct [|]|]; [destruct dw| | |] |];
    cbv [save_data bind os_makedirs_exist_ok open_w json_dump print ret set_disk
         set_stdout disk data_dir cwd_writable data_writable prices_json
         clock ticks twister drawn network stdout];
    intros H; try discriminate; injection H as <-; cbn;
    rewrite <- !app_assoc; repeat split.
Qed.

Lemma generate_fallback_data_world w s w' :
  generate_fallback_data w = (Return s, w') ->
  w' = set_drawn (drawn w + 48) (set_ticks (S (ticks w)) w).
Proof.
  intros H. apply generate_fallback_data_Return in H. destruct H as [Hloop _].
  apply for_in_hourly_world in Hloop. rewrite length_range in Hloop.
  exact Hloop.
Qed.


(** The world in which [main] calls the generator. *)
Lemma world_before_generator w :
  let w1 := run_world fetch_entsoe_data
              (run_world (print (Line "Fetching electricity prices for Finland...")) w) in
  clock w1 = clock w /\ ticks w1 = S (ticks w) /\ drawn w1 = drawn w /\
  disk w1 = disk w /\
  exists fetch_out,
    stdout w1 = stdout w ++ Line "Fetching electricity prices for Finland..."
                         :: fetch_out.
Proof.
  intros w1. subst w1. unfold run_world.
  set (w0 := snd (print _ w)).
  assert (E0 : stdout w0 = stdout w ++ [Line "Fetching electricity prices for Finland..."])
    by reflexivity.
  rewrite (keeps_clock_fetch_entsoe_data w0), (ticks_fetch_entsoe_data w0),
    (keeps_drawn_fetch_entsoe_data w0), (keeps_disk_fetch_entsoe_data w0).
  repeat split.
  assert (Hemits : emits (fun _ => True) fetch_entsoe_data).
  { unfold fetch_entsoe_data. cbv zeta. repeat first [ emits_step | exact I ]. }
  destruct (Hemits w0) as [out [E _]]. exists out.
  rewrite E, E0, <- app_assoc. reflexivity.
Qed.

(** X9. When [main] returns, the file holds a summary stamped with the
    second clock reading of the run (the first went to the fetcher), the
    run has read the clock twice and drawn 48 random numbers, and the
    transcript ends with the fallback notice, the three lines of the
    writer carrying the current price and timestamp of that very
    summary, and the completion line. *)
Theorem main_success_transcript w w3 :
  main w = (Return tt, w3) ->
  exists s fetch_out,
    prices_json (disk w3) = RegularFile (JsonDocument 2 s) true /\
    last_updated s = isoformat (clock w (S (ticks w))) /\
    ticks w3 = S (S (ticks w)) /\ drawn w3 = (drawn w + 48)%nat /\
    stdout w3 =
    stdout w ++ Line "Fetching electricity prices for Finland..." :: fetch_out
             ++ [Line "Using generated fallback data";
                 Line "Data saved to data/electricity-prices.json";
                 CurrentPrice (current_price s);
                 LastUpdated (last_updated s);
                 completed_line].
Proof.
  intros H. rewrite main_obtains_then_saves in H.
  apply bind_Return in H. destruct H as [s [wa [Hobt H]]].
  apply bind_Return in H. destruct H as [[] [wb [Hsave H]]].
  unfold print in H. injection H as <-.
  pose proof Hobt as Hchain. rewrite obtain_data_falls_back in Hchain.
  apply bind_Return in Hchain. destruct Hchain as [[] [w0 [Hp Hchain]]].
  apply bind_Return in Hchain. destruct Hchain as [r [w1 [Hf Hchain]]].
  apply bind_Return in Hchain. destruct Hchain as [g [w2 [Hg Hchain]]].
  apply bind_Return in Hchain. destruct Hchain as [[] [w2' [Hp2 Hchain]]].
  unfold ret in Hchain. injection Hchain as -> ->.
  unfold print in Hp2. injection Hp2 as <-.
  pose proof (world_before_generator w) as Hw1. cbv zeta in Hw1.
  unfold run_world in Hw1. rewrite Hp in Hw1. cbn [snd] in Hw1.
  rewrite Hf in Hw1. cbn [snd] in Hw1.
  destruct Hw1 as [Hclock [Hticks [Hdrawn [_ [fetch_out Hout]]]]].
  pose proof (generate_fallback_data_world _ _ _ Hg) as Hw2. subst w2.
  apply generate_fallback_data_Return in Hg.
  destruct Hg as [_ [Hlast _]].
  pose proof (save_data_Return_lines _ _ _ Hsave) as [Hlines [Ht Hd]].
  apply save_data_Return in Hsave. destruct Hsave as [_ [_ Hfile]].
  exists s, fetch_out.
  cbn [disk stdout ticks drawn set_stdout set_drawn set_ticks] in *.
  split; [exact Hfile|]. split; [now rewrite Hlast, Hclock, Hticks|].
  split; [now rewrite Ht, Hticks|]. split; [now rewrite Hd, Hdrawn|].
  rewrite Hlines, Hout. rewrite <- !app_assoc. reflexivity.
Qed.


(* ------------------------------------------------------------------ *)
(** ** The further properties at concrete runs *)


(** X3 on the run of [world0]. *)
Lemma generate_fallback_data_effect_run :
  exists s,
    generate_fallback_data world0 =
    (Return s, set_drawn 48 (set_ticks 1 world0)).
Proof.
  refine (proj1 (generate_fallback_data_effect world0) _ _).
  - cbn. lia.
  - cbn. unfold MAXORDINAL. lia.
Defined.

(** X4 on the run of [world0]. *)
Lemma generated_timestamps_on_the_hour_run :
  exists s w',
    generate_fallback_data world0 = (Return s, w') /\
    last_updated s = isoformat now0 /\
    forall item, In item (hourly_data s) ->
      minute (fromisoformat (Item.time item)) = 0 /\
      utcoffset (fromisoformat (Item.time item)) = 7200.
Proof.
  eexists. eexists. split; [vm_compute; reflexivity|].
  split.
  - refine (proj1 (generated_timestamps_on_the_hour world0 _ _ _)).
    vm_compute; reflexivity.
  - intros item Hin.
    refine (let H := proj2 (generated_timestamps_on_the_hour world0 _ _ _) item Hin
            in conj (proj1 (proj2 H)) (proj2 (proj2 (proj2 (proj2 H))))).
    vm_compute; reflexivity.
Defined.

(** X5 on the run of [world_noisy]. *)
Lemma generated_average_between_extremes_run :
  exists s w',
    generate_fallback_data world_noisy = (Return s, w') /\
    (Extreme.value (min_price s) <= average_price s
     <= Extreme.value (max_price s))%Q.
Proof.
  eexists. eexists. split; [vm_compute; reflexivity|].
  refine (generated_average_between_extremes world_noisy _ _ _).
  vm_compute; reflexivity.
Defined.


(** X8 on the run of [world_readonly]: the refused run does not claim
    completion. *)
Lemma main_reports_completion_truthfully_run :
  exists out,
    stdout (snd (main world_readonly)) = out /\ ~ In completed_line out.
Proof.
  destruct (main_reports_completion_truthfully world_readonly) as [out [E [_ Hiff]]].
  exists out. split; [exact E|].
  intros Hin. apply Hiff in Hin. vm_compute in Hin. discriminate Hin.
Defined.

(** X9 on the run against the server that answers 500. *)
Lemma main_success_transcript_run :
  exists w3 s,
    main world500 = (Return tt, w3) /\
    prices_json (disk w3) = RegularFile (JsonDocument 2 s) true /\
    last_updated s = isoformat now0 /\
    ticks w3 = 2%nat /\ drawn w3 = 48%nat.
Proof.
  eexists.
  match goal with |- exists s, ?A /\ _ =>
    assert (Ha : A) by (vm_compute; reflexivity)
  end.
  destruct (main_success_transcript _ _ Ha) as [s [out [Hf [Hl [Ht [Hd _]]]]]].
  exists s. repeat split; assumption.
Defined.


(** X11 at 14:37:12, past the half hour, where the price is that of
    15:00, and at 14:30:00 sharp, where the tie goes to 14:00. *)
Lemma generated_current_price_index_run :
  (exists s w' item,
     generate_fallback_data world0 = (Return s, w') /\
     nth_error (hourly_data s) 25 = Some item /\
     current_price s = Item.price item) /\
  (exists s w' item,
     generate_fallback_data world_half_past = (Return s, w') /\
     nth_error (hourly_data s) 24 = Some item /\
     current_price s = Item.price item).
Proof.
  split.
  - eexists. eexists.
    match goal with |- exists item, ?A /\ _ =>
      assert (Ha : A) by (vm_compute; reflexivity)
    end.
    destruct (generated_current_price_index _ _ _ Ha) as [item [Hn Hc]].
    + unfold valid_datetime, MAXORDINAL, us_per_second. cbn. lia.
    + exists item. split; [exact Ha|]. split; [exact Hn | exact Hc].
  - eexists. eexists.
    match goal with |- exists item, ?A /\ _ =>
      assert (Ha : A) by (vm_compute; reflexivity)
    end.
    destruct (generated_current_price_index _ _ _ Ha) as [item [Hn Hc]].
    + unfold valid_datetime, MAXORDINAL, us_per_second. cbn. lia.
    + exists item. split; [exact Ha|]. split; [exact Hn | exact Hc].
Defined.
